(** * Warehouse bookkeeping core of [core.py]: inventory, journal, undo/redo

    A shallow embedding of the stateful part of [src/core.py]: the two live
    tables [df_transactions] and [df_inventory], the files of the data
    folder (the two CSV files and the uploads), the log folder, and the two
    history stacks, with every function of the source written as a state
    transformer.

    Conventions.
    - A pandas DataFrame is the list of its rows, in index order; every
      frame of the program is built with [ignore_index=True], so the index
      of a row is its position.
    - The Python lists [undo_stack] and [redo_stack] are used with
      [append]/[pop] only; here the head of the list is the top of the stack.
    - [datetime.now()] is an input: every call of an operation receives the
      clock readings it will make.
    - A file holds what was last written to it: a frame written by
      [to_csv], or the bytes of an upload.  Failing file operations are not
      modelled.
    - Snapshots are taken with [DataFrame.copy()] and a popped snapshot
      leaves its stack when it becomes the live table, so no two places ever
      hold the same frame object: values are enough, no store is needed. *)

From Stdlib Require Import ZArith Ascii String List Lia.
From stdpp Require Import base option list strings gmap.

Open Scope string_scope.
Open Scope list_scope.
Open Scope Z_scope.

(** ** Data *)

Definition Time := Z.

(** A row of [df_transactions]; columns 日期, 出入库, 物品, 发送方(接收方),
    经办人, 备注.  The frame has no quantity column. *)
Record TransactionRecord := {
  rec_date : Time;
  rec_type : string;
  rec_item : string;
  rec_sender_receiver : string;
  rec_operator : string;
  rec_remarks : string
}.

(** A row of [df_inventory]; columns 最后改变时间, 物品, 在库数量. *)
Record InventoryRow := {
  inv_last_changed : Time;
  inv_item : string;
  inv_stock : Z
}.

Abbreviation Transactions := (list TransactionRecord).
Abbreviation Inventory := (list InventoryRow).
Abbreviation Snapshot := (Transactions * Inventory)%type.

(** What a file of the data folder holds: the frame [to_csv] wrote last, or
    the bytes of the upload that was written over it. *)
Inductive File (A : Type) :=
| Saved (frame : A)
| Uploaded (content : string).

Arguments Saved {A} frame.
Arguments Uploaded {A} content.

(** The two CSV files, as [log_files] copies them. *)
Abbreviation Files := (File Transactions * File Inventory)%type.

Record State := {
  df_transactions : Transactions;
  df_inventory : Inventory;
  undo_stack : list Snapshot;
  redo_stack : list Snapshot;
  csv_transactions : File Transactions;  (* contents of TRANSACTION_CSV *)
  csv_inventory : File Inventory;        (* contents of INVENTORY_CSV *)
  log_folder : gmap string Files;        (* LOG_DIR, by timestamp prefix *)
  data_files : gmap string string        (* the other files of DATA_DIR, by path *)
}.

(** The value of a [gr.Number(precision=0)] field: an integer, or [None]
    when the field is empty. *)
Definition PyNumber := option Z.

(** An uploaded file, as [process_image] uses it: [file_obj.name] and what
    [file_obj.read()] returns. *)
Record Upload := {
  file_name : string;
  file_bytes : string
}.

(** The arguments of [add_inbound] and [add_outbound]. [image] is the
    uploaded file, if any. *)
Record Request := {
  item : string;
  sender_receiver : string;
  operator : string;
  remarks : string;
  quantity : PyNumber;
  image : option Upload
}.

(** The clock readings of one call: the [strftime] stamp of [log_files],
    [now] of the transaction function, [now] of [update_inventory]. *)
Record Clock := {
  t_log : string;
  t_record : Time;
  t_stock : Time
}.

(** How a call ends: it returns its status message, or an exception
    propagates to the caller. *)
Inductive Outcome :=
| Return (msg : string)
| Raise (exn : string).

(** ** Constants of the source *)

Definition DATA_DIR : string := "./data".
Definition TRANSACTION_CSV : string := "./data/transaction_records.csv".
Definition INVENTORY_CSV : string := "./data/warehouse_inventory.csv".

Definition INBOUND : string := "入库".
Definition OUTBOUND : string := "出库".

Definition msg_negative_stock (it : string) : string :=
  "Error: 出库操作导致物品 '" +:+ it +:+ "' 库存为负！".
Definition msg_unknown_item (it : string) : string :=
  "Error: 物品 '" +:+ it +:+ "' 不存在于库存中，无法出库！".
Definition msg_inventory_updated : string := "库存已更新。".
Definition msg_inbound_ok : string := "入库交易记录成功。".
Definition msg_outbound_ok : string := "出库交易记录成功。".
Definition msg_no_undo : string := "无法撤销操作，没有历史记录。".
Definition msg_undo_ok : string := "撤销成功。".
Definition msg_no_redo : string := "无法重做操作，没有重做记录。".
Definition msg_redo_ok : string := "重做成功。".

(** The start of the program when no CSV file exists yet: two empty frames,
    written out at once, and two empty stacks. *)
Definition initial_state : State := {|
  df_transactions := [];
  df_inventory := [];
  undo_stack := [];
  redo_stack := [];
  csv_transactions := Saved [];
  csv_inventory := Saved [];
  log_folder := ∅;
  data_files := ∅
|}.

(** ** Assignments to the globals *)

Definition set_transactions (t : Transactions) (st : State) : State := {|
  df_transactions := t;
  df_inventory := df_inventory st;
  undo_stack := undo_stack st;
  redo_stack := redo_stack st;
  csv_transactions := csv_transactions st;
  csv_inventory := csv_inventory st;
  log_folder := log_folder st;
  data_files := data_files st
|}.

Definition set_inventory (i : Inventory) (st : State) : State := {|
  df_transactions := df_transactions st;
  df_inventory := i;
  undo_stack := undo_stack st;
  redo_stack := redo_stack st;
  csv_transactions := csv_transactions st;
  csv_inventory := csv_inventory st;
  log_folder := log_folder st;
  data_files := data_files st
|}.

Definition set_undo_stack (u : list Snapshot) (st : State) : State := {|
  df_transactions := df_transactions st;
  df_inventory := df_inventory st;
  undo_stack := u;
  redo_stack := redo_stack st;
  csv_transactions := csv_transactions st;
  csv_inventory := csv_inventory st;
  log_folder := log_folder st;
  data_files := data_files st
|}.

Definition set_redo_stack (r : list Snapshot) (st : State) : State := {|
  df_transactions := df_transactions st;
  df_inventory := df_inventory st;
  undo_stack := undo_stack st;
  redo_stack := r;
  csv_transactions := csv_transactions st;
  csv_inventory := csv_inventory st;
  log_folder := log_folder st;
  data_files := data_files st
|}.

(** ** Logging and saving *)

(** [log_files]: both CSV files are copied into the log folder under the
    stamp; [shutil.copy] overwrites a copy made within the same second.
    Both files exist from start-up on. *)
Definition log_files (stamp : string) (st : State) : State := {|
  df_transactions := df_transactions st;
  df_inventory := df_inventory st;
  undo_stack := undo_stack st;
  redo_stack := redo_stack st;
  csv_transactions := csv_transactions st;
  csv_inventory := csv_inventory st;
  log_folder := <[stamp := (csv_transactions st, csv_inventory st)]> (log_folder st);
  data_files := data_files st
|}.

Definition save_transactions (st : State) : State := {|
  df_transactions := df_transactions st;
  df_inventory := df_inventory st;
  undo_stack := undo_stack st;
  redo_stack := redo_stack st;
  csv_transactions := Saved (df_transactions st);
  csv_inventory := csv_inventory st;
  log_folder := log_folder st;
  data_files := data_files st
|}.

Definition save_inventory (st : State) : State := {|
  df_transactions := df_transactions st;
  df_inventory := df_inventory st;
  undo_stack := undo_stack st;
  redo_stack := redo_stack st;
  csv_transactions := csv_transactions st;
  csv_inventory := Saved (df_inventory st);
  log_folder := log_folder st;
  data_files := data_files st
|}.

(** ** Inventory update *)

(** [df_inventory.index[df_inventory["物品"] == item][0]] with the row it
    names: the first row of the item; [None] is
    [item not in df_inventory["物品"].values]. *)
Definition find_item (it : string) (inv : Inventory) : option (nat * InventoryRow) :=
  list_find (λ row, inv_item row = it) inv.

(** The two [.loc] assignments of lines 89 and 90. *)
Definition write_stock (now : Time) (new_stock : Z) (row : InventoryRow) : InventoryRow :=
  {| inv_last_changed := now; inv_item := inv_item row; inv_stock := new_stock |}.

Definition update_inventory (now : Time) (it transaction_type : string)
    (qty : Z) (st : State) : State * (bool * string) :=
  match find_item it (df_inventory st) with
  | Some (idx, row) =>
      let current_stock := inv_stock row in
      if String.eqb transaction_type INBOUND then
        let new_stock := current_stock + qty in
        let st := set_inventory (<[idx := write_stock now new_stock row]> (df_inventory st)) st in
        (save_inventory st, (true, msg_inventory_updated))
      else
        let new_stock := current_stock - qty in
        if new_stock <? 0 then (st, (false, msg_negative_stock it))
        else
          let st := set_inventory (<[idx := write_stock now new_stock row]> (df_inventory st)) st in
          (save_inventory st, (true, msg_inventory_updated))
  | None =>
      if String.eqb transaction_type INBOUND then
        let new_row := {| inv_last_changed := now; inv_item := it; inv_stock := qty |} in
        let st := set_inventory (df_inventory st ++ [new_row]) st in
        (save_inventory st, (true, msg_inventory_updated))
      else (st, (false, msg_unknown_item it))
  end.

(** ** Transactions *)

(** [int(quantity)]: the identity on an integer, [TypeError] on [None]. *)
Definition py_int (q : PyNumber) : option Z := q.

Fixpoint has_slash (p : string) : bool :=
  match p with
  | EmptyString => false
  | String c rest => Ascii.eqb c "/"%char || has_slash rest
  end.

(** [os.path.basename]: what follows the last slash. *)
Fixpoint basename (p : string) : string :=
  match p with
  | EmptyString => EmptyString
  | String c rest =>
      if has_slash rest then basename rest
      else if Ascii.eqb c "/"%char then rest else p
  end.

(** [os.path.join(DATA_DIR, filename)] for a name without a slash. *)
Definition dest_path (file_obj : Upload) : string :=
  DATA_DIR +:+ "/" +:+ basename (file_name file_obj).

(** [open(dest_path, "wb")] and [f.write]: the file at the path now holds
    the bytes.  The path may be that of one of the two CSV files. *)
Definition write_file (path content : string) (st : State) : State := {|
  df_transactions := df_transactions st;
  df_inventory := df_inventory st;
  undo_stack := undo_stack st;
  redo_stack := redo_stack st;
  csv_transactions :=
    if String.eqb path TRANSACTION_CSV then Uploaded content else csv_transactions st;
  csv_inventory :=
    if String.eqb path INVENTORY_CSV then Uploaded content else csv_inventory st;
  log_folder := log_folder st;
  data_files :=
    if String.eqb path TRANSACTION_CSV || String.eqb path INVENTORY_CSV
    then data_files st
    else <[path := content]> (data_files st)
|}.

(** [process_image] saves the upload in the data folder under its base name
    and returns the path; without an upload it writes nothing and returns
    the empty string. *)
Definition process_image (file_obj : option Upload) (st : State) : State * string :=
  match file_obj with
  | None => (st, EmptyString)
  | Some f => (write_file (dest_path f) (file_bytes f) st, dest_path f)
  end.

(** The state [process_image] leaves, field by field: only files of the data
    folder change, and only with an upload. *)
Definition save_upload (file_obj : option Upload) (st : State) : State := {|
  df_transactions := df_transactions st;
  df_inventory := df_inventory st;
  undo_stack := undo_stack st;
  redo_stack := redo_stack st;
  csv_transactions :=
    match file_obj with
    | Some f => csv_transactions (write_file (dest_path f) (file_bytes f) st)
    | None => csv_transactions st
    end;
  csv_inventory :=
    match file_obj with
    | Some f => csv_inventory (write_file (dest_path f) (file_bytes f) st)
    | None => csv_inventory st
    end;
  log_folder := log_folder st;
  data_files :=
    match file_obj with
    | Some f => data_files (write_file (dest_path f) (file_bytes f) st)
    | None => data_files st
    end
|}.

(** The path [process_image] returns. *)
Definition image_path_of (file_obj : option Upload) : string :=
  match file_obj with
  | None => EmptyString
  | Some f => dest_path f
  end.

Definition with_image (rem image_path : string) : string :=
  match image_path with
  | EmptyString => rem
  | _ => rem +:+ " || image:" +:+ image_path
  end.

Definition make_record (now : Time) (transaction_type : string) (req : Request)
    (rem : string) : TransactionRecord := {|
  rec_date := now;
  rec_type := transaction_type;
  rec_item := item req;
  rec_sender_receiver := sender_receiver req;
  rec_operator := operator req;
  rec_remarks := rem
|}.

(** Lines 122 to 124 and 155 to 157: log, push the live pair, clear redo. *)
Definition begin_transaction (clk : Clock) (st : State) : State :=
  let st := log_files (t_log clk) st in
  let st := set_undo_stack ((df_transactions st, df_inventory st) :: undo_stack st) st in
  set_redo_stack [] st.

Definition add_inbound (clk : Clock) (req : Request) (st : State) : State * Outcome :=
  let st := begin_transaction clk st in
  let now := t_record clk in
  let transaction_type := INBOUND in
  match py_int (quantity req) with
  | None => (st, Raise "TypeError")
  | Some qty =>
      let '(st, image_path) := process_image (image req) st in
      let rem := with_image (remarks req) image_path in
      let record := make_record now transaction_type req rem in
      let '(st, (success, msg)) :=
        update_inventory (t_stock clk) (item req) transaction_type qty st in
      if negb success then (st, Return msg)
      else
        let st := set_transactions (df_transactions st ++ [record]) st in
        (save_transactions st, Return msg_inbound_ok)
  end.

Definition add_outbound (clk : Clock) (req : Request) (st : State) : State * Outcome :=
  let st := begin_transaction clk st in
  let now := t_record clk in
  let transaction_type := OUTBOUND in
  match py_int (quantity req) with
  | None => (st, Raise "TypeError")
  | Some qty =>
      let '(st, image_path) := process_image (image req) st in
      let rem := with_image (remarks req) image_path in
      let '(st, (success, msg)) :=
        update_inventory (t_stock clk) (item req) transaction_type qty st in
      if negb success then (st, Return msg)
      else
        let record := make_record now transaction_type req rem in
        let st := set_transactions (df_transactions st ++ [record]) st in
        (save_transactions st, Return msg_outbound_ok)
  end.

(** ** Undo and redo *)

Definition undo_action (st : State) : State * (string * Transactions) :=
  match undo_stack st with
  | [] => (st, (msg_no_undo, df_transactions st))
  | state :: rest =>
      let st := set_redo_stack ((df_transactions st, df_inventory st) :: redo_stack st) st in
      let st := set_undo_stack rest st in
      let st := set_inventory (snd state) (set_transactions (fst state) st) in
      let st := save_inventory (save_transactions st) in
      (st, (msg_undo_ok, df_transactions st))
  end.

Definition redo_action (st : State) : State * (string * Transactions) :=
  match redo_stack st with
  | [] => (st, (msg_no_redo, df_transactions st))
  | state :: rest =>
      let st := set_undo_stack ((df_transactions st, df_inventory st) :: undo_stack st) st in
      let st := set_redo_stack rest st in
      let st := set_inventory (snd state) (set_transactions (fst state) st) in
      let st := save_inventory (save_transactions st) in
      (st, (msg_redo_ok, df_transactions st))
  end.

(** ** Sequences of operations *)

(** The four buttons of the interface that change the state. *)
Inductive Action :=
| Inbound (clk : Clock) (req : Request)
| Outbound (clk : Clock) (req : Request)
| Undo
| Redo.

Definition exec (st : State) (a : Action) : State * Outcome :=
  match a with
  | Inbound clk req => add_inbound clk req st
  | Outbound clk req => add_outbound clk req st
  | Undo => let '(st', (msg, _)) := undo_action st in (st', Return msg)
  | Redo => let '(st', (msg, _)) := redo_action st in (st', Return msg)
  end.

Definition step (st : State) (a : Action) : State := fst (exec st a).

Definition run (st : State) (acts : list Action) : State := foldl step st acts.

Definition is_transaction (a : Action) : bool :=
  match a with
  | Inbound _ _ | Outbound _ _ => true
  | Undo | Redo => false
  end.

(** A transaction is committed when its call returns the success message. *)
Definition committed (st : State) (a : Action) : bool :=
  match a with
  | Inbound clk req =>
      match snd (add_inbound clk req st) with
      | Return msg => String.eqb msg msg_inbound_ok
      | Raise _ => false
      end
  | Outbound clk req =>
      match snd (add_outbound clk req st) with
      | Return msg => String.eqb msg msg_outbound_ok
      | Raise _ => false
      end
  | Undo | Redo => false
  end.

(** The transactions of a run that were committed, in order. *)
Fixpoint committed_of (st : State) (acts : list Action) : list Action :=
  match acts with
  | [] => []
  | a :: rest =>
      (if committed st a then [a] else []) ++ committed_of (step st a) rest
  end.

(** The row a committed transaction adds to [df_transactions]. *)
Definition record_of (a : Action) : list TransactionRecord :=
  match a with
  | Inbound clk req =>
      [make_record (t_record clk) INBOUND req
         (with_image (remarks req) (image_path_of (image req)))]
  | Outbound clk req =>
      [make_record (t_record clk) OUTBOUND req
         (with_image (remarks req) (image_path_of (image req)))]
  | Undo | Redo => []
  end.

(** What a request moves of an item: its quantity, counted negative for an
    outbound request, and nothing for another item. *)
Definition signed_quantity (it : string) (a : Action) : Z :=
  match a with
  | Inbound _ req =>
      if decide (item req = it) then default 0 (py_int (quantity req)) else 0
  | Outbound _ req =>
      if decide (item req = it) then - default 0 (py_int (quantity req)) else 0
  | Undo | Redo => 0
  end.

Definition net_quantity (it : string) (acts : list Action) : Z :=
  foldr (λ a acc, signed_quantity it a + acc) 0 acts.

(** The stock of an item: the quantity of its first row. *)
Definition stock_of (it : string) (inv : Inventory) : option Z :=
  (λ p, inv_stock (snd p)) <$> find_item it inv.

Definition nonneg_inventory (inv : Inventory) : Prop :=
  Forall (λ row, 0 ≤ inv_stock row) inv.

Definition positive_quantity (a : Action) : Prop :=
  match a with
  | Inbound _ req | Outbound _ req =>
      match quantity req with
      | Some q => 0 < q
      | None => False
      end
  | Undo | Redo => True
  end.

(** The claim that the journal records the quantities, in its own words:
    [recorded] reads the quantity off a journal entry, and the stock of an
    item is the inbound sum minus the outbound sum over its entries. *)
Definition journal_net (recorded : TransactionRecord → Z) (it : string)
    (journal : Transactions) : Z :=
  foldr (λ e acc,
           (if decide (rec_item e = it)
            then if String.eqb (rec_type e) INBOUND then recorded e else - recorded e
            else 0) + acc) 0 journal.

(** Every inventory the state holds, live or in a snapshot of a stack, has
    no negative quantity. *)
Definition history_ok (st : State) : Prop :=
  nonneg_inventory (df_inventory st) ∧
  Forall (λ s : Snapshot, nonneg_inventory (snd s)) (undo_stack st) ∧
  Forall (λ s : Snapshot, nonneg_inventory (snd s)) (redo_stack st).

(** The state in which a transaction calls [update_inventory]: the one left
    by the log, the push, the clear and the saving of the upload. *)
Definition before_apply (clk : Clock) (req : Request) (st : State) : State :=
  fst (process_image (image req) (begin_transaction clk st)).

(** The call of [update_inventory] a transaction makes, with its result:
    the apply receives the quantity as [int] returned it.  No call is made
    when [int] raises, nor by undo and redo. *)
Definition ledger_apply (st : State) (a : Action) : option (State * (bool * string)) :=
  match a with
  | Inbound clk req =>
      (λ q, update_inventory (t_stock clk) (item req) INBOUND q (before_apply clk req st))
        <$> py_int (quantity req)
  | Outbound clk req =>
      (λ q, update_inventory (t_stock clk) (item req) OUTBOUND q (before_apply clk req st))
        <$> py_int (quantity req)
  | Undo | Redo => None
  end.

(** The request carries an upload whose base name is that of one of the two
    CSV files, so that saving it writes over that file. *)
Definition overwrites_csv (a : Action) : bool :=
  match a with
  | Inbound _ req | Outbound _ req =>
      match image req with
      | Some f =>
          String.eqb (dest_path f) TRANSACTION_CSV || String.eqb (dest_path f) INVENTORY_CSV
      | None => false
      end
  | Undo | Redo => false
  end.

(** The stamp under which a transaction logs the CSV files. *)
Definition log_stamp (a : Action) : option string :=
  match a with
  | Inbound clk _ | Outbound clk _ => Some (t_log clk)
  | Undo | Redo => None
  end.

(** ** Views of the state *)

(** The live pair, as [undo_action] and [redo_action] copy and install it. *)
Definition tables (st : State) : Snapshot := (df_transactions st, df_inventory st).

(** What lives in the process: the live pair and the two stacks. *)
Definition memory (st : State) : Snapshot * list Snapshot * list Snapshot :=
  (tables st, undo_stack st, redo_stack st).

(** All the pairs the process holds, oldest first: the undo stack from its
    bottom, the live pair, the redo stack from its top. *)
Definition timeline (st : State) : list Snapshot :=
  reverse (undo_stack st) ++ tables st :: redo_stack st.

(** The two files as [to_csv] writes them for a pair of tables. *)
Definition saved (s : Snapshot) : Files := (Saved (fst s), Saved (snd s)).

(** The CSV files hold the live tables. *)
Definition synced (st : State) : Prop :=
  csv_transactions st = Saved (df_transactions st) ∧
  csv_inventory st = Saved (df_inventory st).

(** No item has two rows. *)
Definition unique_items (inv : Inventory) : Prop := NoDup (inv_item <$> inv).

(** A property of inventories that holds of the live one and of every
    snapshot on the stacks. *)
Definition history_all (P : Inventory → Prop) (st : State) : Prop :=
  P (df_inventory st) ∧
  Forall (λ s : Snapshot, P (snd s)) (undo_stack st) ∧
  Forall (λ s : Snapshot, P (snd s)) (redo_stack st).

Definition is_history_move (a : Action) : bool :=
  match a with
  | Undo | Redo => true
  | Inbound _ _ | Outbound _ _ => false
  end.

(** No inbound request brings a negative quantity; outbound requests, undo
    and redo are free. *)
Definition nonneg_inbound (a : Action) : Prop :=
  match a with
  | Inbound _ req =>
      match quantity req with
      | Some q => 0 ≤ q
      | None => True
      end
  | Outbound _ _ | Undo | Redo => True
  end.

(** The stamps under which a sequence of operations logs. *)
Definition log_stamps (acts : list Action) : gset string :=
  list_to_set (omap log_stamp acts).

(** ** The running example *)

Definition clock0 : Clock := {| t_log := "20250101090000"; t_record := 1; t_stock := 2 |}.
Definition clock1 : Clock := {| t_log := "20250101090100"; t_record := 3; t_stock := 4 |}.
Definition clock2 : Clock := {| t_log := "20250101090200"; t_record := 5; t_stock := 6 |}.

Definition widget (q : PyNumber) : Request := {|
  item := "widget";
  sender_receiver := "acme";
  operator := "li";
  remarks := "none";
  quantity := q;
  image := None
|}.

(** An upload whose base name is that of the journal file, and a request
    carrying an upload. *)
Definition stray_upload : Upload :=
  {| file_name := "exports/transaction_records.csv"; file_bytes := "not a journal" |}.


Definition with_upload (req : Request) (f : Upload) : Request := {|
  item := item req;
  sender_receiver := sender_receiver req;
  operator := operator req;
  remarks := remarks req;
  quantity := quantity req;
  image := Some f
|}.

(** Ten widgets in stock, and the same state after an undo: nothing in
    stock, one snapshot to redo. *)
Definition stocked_state : State := run initial_state [Inbound clock0 (widget (Some 10))].
Definition undone_state : State := step stocked_state Undo.

(** Ten widgets in, four out, and a refused request for ninety. *)
Definition busy_state : State :=
  run stocked_state
    [Outbound clock1 (widget (Some 4)); Outbound clock2 (widget (Some 90))].

Example widget_inbound_10 :
  stock_of "widget" (df_inventory (run initial_state [Inbound clock0 (widget (Some 10))]))
  = Some 10.
Proof. reflexivity. Qed.

Example widget_outbound_4 :
  let st := run initial_state
              [Inbound clock0 (widget (Some 10)); Outbound clock1 (widget (Some 4))] in
  stock_of "widget" (df_inventory st) = Some 6 ∧ length (df_transactions st) = 2%nat.
Proof. split; reflexivity. Qed.

Example widget_outbound_100_rejected :
  let st := run initial_state
              [Inbound clock0 (widget (Some 10)); Outbound clock1 (widget (Some 4))] in
  let '(st', out) := add_outbound clock2 (widget (Some 100)) st in
  out = Return (msg_negative_stock "widget") ∧
  stock_of "widget" (df_inventory st') = Some 6 ∧
  length (df_transactions st') = 2%nat.
Proof. vm_compute. repeat split. Qed.

Example widget_undo_redo :
  let st := run initial_state
              [Inbound clock0 (widget (Some 10)); Outbound clock1 (widget (Some 4))] in
  let st1 := step st Undo in
  let st2 := step st1 Redo in
  stock_of "widget" (df_inventory st1) = Some 10 ∧
  length (df_transactions st1) = 1%nat ∧
  stock_of "widget" (df_inventory st2) = Some 6 ∧
  length (df_transactions st2) = 2%nat.
Proof. vm_compute. repeat split. Qed.

(** ** The ledger apply, case by case *)

Lemma outbound_is_not_inbound : String.eqb OUTBOUND INBOUND = false.
Proof. reflexivity. Qed.

Lemma process_image_eq (file_obj : option Upload) (st : State) :
  process_image file_obj st = (save_upload file_obj st, image_path_of file_obj).
Proof. destruct file_obj, st; reflexivity. Qed.

(** Replaces the call of [process_image] by the state it leaves and the
    path it returns. *)
Ltac open_upload :=
  cbv zeta; rewrite ?process_image_eq; cbn [fst snd]; cbv beta iota.

Lemma update_inventory_inbound (now : Time) (it : string) (q : Z) (st : State) :
  update_inventory now it INBOUND q st =
  (save_inventory
     (set_inventory
        (match find_item it (df_inventory st) with
         | Some (idx, row) =>
             <[idx := write_stock now (inv_stock row + q) row]> (df_inventory st)
         | None =>
             df_inventory st ++
               [{| inv_last_changed := now; inv_item := it; inv_stock := q |}]
         end) st),
   (true, msg_inventory_updated)).
Proof.
  unfold update_inventory. rewrite String.eqb_refl.
  destruct (find_item it (df_inventory st)) as [[idx row]|]; reflexivity.
Qed.

Lemma update_inventory_outbound (now : Time) (it : string) (q : Z) (st : State) :
  update_inventory now it OUTBOUND q st =
  match find_item it (df_inventory st) with
  | Some (idx, row) =>
      if inv_stock row - q <? 0 then (st, (false, msg_negative_stock it))
      else (save_inventory
              (set_inventory
                 (<[idx := write_stock now (inv_stock row - q) row]> (df_inventory st)) st),
            (true, msg_inventory_updated))
  | None => (st, (false, msg_unknown_item it))
  end.
Proof.
  unfold update_inventory. rewrite outbound_is_not_inbound. reflexivity.
Qed.

(** A rejected apply hands back the state it was given. *)
Lemma update_inventory_rejected (now : Time) (it tt : string) (q : Z) (st : State) :
  fst (snd (update_inventory now it tt q st)) = false →
  fst (update_inventory now it tt q st) = st ∧ String.eqb tt INBOUND = false.
Proof.
  unfold update_inventory.
  destruct (find_item it (df_inventory st)) as [[idx row]|];
    destruct (String.eqb tt INBOUND); simpl; try discriminate.
  - destruct (inv_stock row - q <? 0); simpl; [auto | discriminate].
  - auto.
Qed.

Lemma find_item_begin (clk : Clock) (file_obj : option Upload) (it : string) (st : State) :
  find_item it (df_inventory (save_upload file_obj (begin_transaction clk st)))
  = find_item it (df_inventory st).
Proof. reflexivity. Qed.

(** Saving an upload leaves the two CSV files alone unless its path is the
    path of one of them. *)
Lemma save_upload_keeps_csv (a : Action) (clk : Clock) (req : Request) (st : State) :
  a = Inbound clk req ∨ a = Outbound clk req →
  overwrites_csv a = false →
  csv_transactions (save_upload (image req) st) = csv_transactions st ∧
  csv_inventory (save_upload (image req) st) = csv_inventory st.
Proof.
  intros Ha Hsafe.
  assert (H : match image req with
              | Some f => String.eqb (dest_path f) TRANSACTION_CSV
                          || String.eqb (dest_path f) INVENTORY_CSV
              | None => false
              end = false) by (destruct Ha as [-> | ->]; exact Hsafe).
  unfold save_upload; cbn [csv_transactions csv_inventory write_file].
  destruct (image req) as [f|]; [|auto].
  apply orb_false_elim in H as [-> ->]. auto.
Qed.

Lemma error_messages_differ (it it' : string) :
  msg_unknown_item it ≠ msg_negative_stock it'.
Proof. unfold msg_unknown_item, msg_negative_stock. simpl. discriminate. Qed.

Lemma negative_stock_is_no_success (it : string) :
  String.eqb (msg_negative_stock it) msg_outbound_ok = false.
Proof. reflexivity. Qed.

Lemma unknown_item_is_no_success (it : string) :
  String.eqb (msg_unknown_item it) msg_outbound_ok = false.
Proof. reflexivity. Qed.

(** ** C10, C4, C5: the outcomes of the apply *)

(** C10. The ledger apply with direction inbound succeeds for every item and
    every integer quantity, whether the item has a row or not; an apply that
    fails was not called with the inbound direction; so [add_inbound] never
    takes its error return: with an integer quantity it reports success. *)
Theorem inbound_apply_always_succeeds :
  (∀ (now : Time) (it : string) (q : Z) (st : State),
     ∃ st', update_inventory now it INBOUND q st = (st', (true, msg_inventory_updated))) ∧
  (∀ (now : Time) (it tt : string) (q : Z) (st : State),
     fst (snd (update_inventory now it tt q st)) = false → tt ≠ INBOUND) ∧
  (∀ (clk : Clock) (req : Request) (st : State),
     snd (add_inbound clk req st) =
     match quantity req with
     | Some _ => Return msg_inbound_ok
     | None => Raise "TypeError"
     end).
Proof.
  split; [|split].
  - intros now it q st. rewrite update_inventory_inbound. eauto.
  - intros now it tt q st Hfail ->.
    apply update_inventory_rejected in Hfail as [_ Hne].
    rewrite String.eqb_refl in Hne. discriminate.
  - intros clk req st. unfold add_inbound, py_int; open_upload.
    destruct (quantity req) as [q|]; [|reflexivity].
    rewrite update_inventory_inbound. reflexivity.
Qed.

Lemma inbound_apply_always_succeeds_witness :
  fst (snd (update_inventory 2 "widget" OUTBOUND 1 initial_state)) = false ∧
  OUTBOUND ≠ INBOUND.
Proof.
  split; [reflexivity|].
  apply (proj1 (proj2 inbound_apply_always_succeeds) 2 "widget" OUTBOUND 1 initial_state).
  reflexivity.
Defined.

(** C4. An outbound request for an item that has a row, with a quantity
    above the stock of that row, is answered with the negative-stock error;
    the apply returns the state untouched, and the inventory and the journal
    are as before the request: the rows of the stock table are those it had,
    the stored quantity among them.  The two CSV files are as before too,
    unless the request carries an upload that is saved under the name of one
    of them. *)
Theorem outbound_above_stock_rejected (clk : Clock) (req : Request) (st : State)
    (q : Z) (idx : nat) (row : InventoryRow) :
  quantity req = Some q →
  find_item (item req) (df_inventory st) = Some (idx, row) →
  inv_stock row < q →
  (∀ now, update_inventory now (item req) OUTBOUND q st
          = (st, (false, msg_negative_stock (item req)))) ∧
  snd (add_outbound clk req st) = Return (msg_negative_stock (item req)) ∧
  df_inventory (fst (add_outbound clk req st)) = df_inventory st ∧
  df_transactions (fst (add_outbound clk req st)) = df_transactions st ∧
  (overwrites_csv (Outbound clk req) = false →
   csv_inventory (fst (add_outbound clk req st)) = csv_inventory st ∧
   csv_transactions (fst (add_outbound clk req st)) = csv_transactions st).
Proof.
  intros Hq Hfind Hlt.
  assert (Hneg : (inv_stock row - q <? 0) = true) by (apply Z.ltb_lt; lia).
  split.
  - intros now. rewrite update_inventory_outbound, Hfind, Hneg. reflexivity.
  - unfold add_outbound, py_int; open_upload. rewrite Hq.
    rewrite update_inventory_outbound, find_item_begin, Hfind, Hneg.
    cbn [fst snd negb]. split; [reflexivity|]. split; [reflexivity|].
    split; [reflexivity|]. intros Hsafe.
    destruct (save_upload_keeps_csv _ clk req (begin_transaction clk st)
                (or_intror eq_refl) Hsafe) as [Ht Hi].
    split; [exact Hi | exact Ht].
Qed.

Lemma outbound_above_stock_rejected_witness :
  quantity (widget (Some 11)) = Some 11 ∧
  find_item "widget" (df_inventory stocked_state)
    = Some (0%nat, {| inv_last_changed := 2; inv_item := "widget"; inv_stock := 10 |}) ∧
  snd (add_outbound clock1 (widget (Some 11)) stocked_state)
    = Return (msg_negative_stock "widget") ∧
  df_inventory (fst (add_outbound clock1 (widget (Some 11)) stocked_state))
    = df_inventory stocked_state.
Proof.
  split; [reflexivity|]. split; [reflexivity|].
  destruct (outbound_above_stock_rejected clock1 (widget (Some 11)) stocked_state 11 0
              {| inv_last_changed := 2; inv_item := "widget"; inv_stock := 10 |}
              eq_refl eq_refl ltac:(simpl; lia)) as (_ & Hout & Hinv & _).
  exact (conj Hout Hinv).
Defined.

(** C5. An outbound request for an item without a row is answered with the
    unknown-item error, which is never the negative-stock error; the apply
    returns the state untouched, and the inventory and the journal are as
    before the request.  The two CSV files are as before too, unless the
    request carries an upload that is saved under the name of one of them. *)
Theorem outbound_unknown_item_rejected (clk : Clock) (req : Request) (st : State) (q : Z) :
  quantity req = Some q →
  find_item (item req) (df_inventory st) = None →
  (∀ now, update_inventory now (item req) OUTBOUND q st
          = (st, (false, msg_unknown_item (item req)))) ∧
  snd (add_outbound clk req st) = Return (msg_unknown_item (item req)) ∧
  (∀ it, msg_unknown_item (item req) ≠ msg_negative_stock it) ∧
  df_inventory (fst (add_outbound clk req st)) = df_inventory st ∧
  df_transactions (fst (add_outbound clk req st)) = df_transactions st ∧
  (overwrites_csv (Outbound clk req) = false →
   csv_inventory (fst (add_outbound clk req st)) = csv_inventory st ∧
   csv_transactions (fst (add_outbound clk req st)) = csv_transactions st).
Proof.
  intros Hq Hfind. split.
  - intros now. rewrite update_inventory_outbound, Hfind. reflexivity.
  - unfold add_outbound, py_int; open_upload. rewrite Hq.
    rewrite update_inventory_outbound, find_item_begin, Hfind.
    cbn [fst snd negb]. split; [reflexivity|].
    split; [intros it; apply error_messages_differ|].
    split; [reflexivity|]. split; [reflexivity|]. intros Hsafe.
    destruct (save_upload_keeps_csv _ clk req (begin_transaction clk st)
                (or_intror eq_refl) Hsafe) as [Ht Hi].
    split; [exact Hi | exact Ht].
Qed.

Lemma outbound_unknown_item_rejected_witness :
  quantity (widget (Some 1)) = Some 1 ∧
  find_item "widget" (df_inventory initial_state) = None ∧
  snd (add_outbound clock0 (widget (Some 1)) initial_state)
    = Return (msg_unknown_item "widget") ∧
  df_inventory (fst (add_outbound clock0 (widget (Some 1)) initial_state)) = [].
Proof.
  split; [reflexivity|]. split; [reflexivity|].
  destruct (outbound_unknown_item_rejected clock0 (widget (Some 1)) initial_state 1
              eq_refl eq_refl) as (_ & Hout & _ & Hinv & _).
  exact (conj Hout Hinv).
Defined.

(** ** Reading the stock after a write *)

Lemma find_item_cons (it : string) (r : InventoryRow) (inv : Inventory) :
  find_item it (r :: inv) =
  if decide (inv_item r = it) then Some (0%nat, r)
  else prod_map S id <$> find_item it inv.
Proof. reflexivity. Qed.

Lemma stock_of_cons (it : string) (r : InventoryRow) (inv : Inventory) :
  stock_of it (r :: inv) =
  if decide (inv_item r = it) then Some (inv_stock r) else stock_of it inv.
Proof.
  unfold stock_of. rewrite find_item_cons.
  destruct (decide (inv_item r = it)); [reflexivity|].
  destruct (find_item it inv) as [[i x]|]; reflexivity.
Qed.

Lemma find_item_row (it : string) (inv : Inventory) (idx : nat) (row : InventoryRow) :
  find_item it inv = Some (idx, row) → inv !! idx = Some row ∧ inv_item row = it.
Proof.
  unfold find_item. intros H. apply list_find_Some in H as (Hl & Hi & _). auto.
Qed.

Lemma stock_of_found (it : string) (inv : Inventory) (idx : nat) (row : InventoryRow) :
  find_item it inv = Some (idx, row) → stock_of it inv = Some (inv_stock row).
Proof. unfold stock_of. intros ->. reflexivity. Qed.

Lemma stock_of_absent (it : string) (inv : Inventory) :
  find_item it inv = None → stock_of it inv = None.
Proof. unfold stock_of. intros ->. reflexivity. Qed.

(** Writing the first row of [it] changes the stock of [it] and of no other
    item. *)
Lemma stock_of_write (it it' : string) (now : Time) (n : Z) (inv : Inventory)
    (idx : nat) (row : InventoryRow) :
  find_item it inv = Some (idx, row) →
  stock_of it' (<[idx := write_stock now n row]> inv) =
  if decide (it = it') then Some n else stock_of it' inv.
Proof.
  revert idx. induction inv as [|r inv IH]; intros idx Hfind.
  - discriminate.
  - rewrite find_item_cons in Hfind.
    destruct (decide (inv_item r = it)) as [Heq|Hne].
    + injection Hfind as <- <-. simpl. rewrite !stock_of_cons. simpl.
      destruct (decide (it = it')) as [->|Hd].
      * rewrite decide_True by assumption. reflexivity.
      * rewrite !decide_False by congruence. reflexivity.
    + destruct (find_item it inv) as [[i x]|] eqn:Hrest; [|discriminate].
      injection Hfind as <- <-. simpl. rewrite !stock_of_cons.
      rewrite (IH i eq_refl).
      destruct (decide (inv_item r = it')) as [Hr|Hr]; [|reflexivity].
      rewrite decide_False by congruence. reflexivity.
Qed.

(** A row appended for an item without a row is the first row of it. *)
Lemma stock_of_new_row (it it' : string) (now : Time) (q : Z) (inv : Inventory) :
  find_item it inv = None →
  stock_of it' (inv ++ [{| inv_last_changed := now; inv_item := it; inv_stock := q |}]) =
  if decide (it = it') then Some q else stock_of it' inv.
Proof.
  induction inv as [|r inv IH]; intros Hfind.
  - simpl. rewrite stock_of_cons. simpl.
    destruct (decide (it = it')); reflexivity.
  - rewrite find_item_cons in Hfind.
    destruct (decide (inv_item r = it)) as [Heq|Hne]; [discriminate|].
    destruct (find_item it inv) as [[i x]|] eqn:Hrest; [discriminate|].
    simpl. rewrite !stock_of_cons, (IH eq_refl).
    destruct (decide (inv_item r = it')) as [Hr|Hr]; [|reflexivity].
    rewrite decide_False by congruence. reflexivity.
Qed.

(** ** One transaction *)

#[local] Arguments find_item : simpl never.
#[local] Arguments stock_of : simpl never.

(** The state and the verdict of one call of [add_inbound] or
    [add_outbound], spelt out: what it leaves in the journal, in the stock
    of any item, and on the two stacks. *)
Lemma transaction_effect (st : State) (a : Action) (it : string) :
  is_transaction a = true →
  df_transactions (step st a)
    = df_transactions st ++ (if committed st a then record_of a else []) ∧
  default 0 (stock_of it (df_inventory (step st a)))
    = default 0 (stock_of it (df_inventory st))
      + (if committed st a then signed_quantity it a else 0) ∧
  undo_stack (step st a) = (df_transactions st, df_inventory st) :: undo_stack st ∧
  redo_stack (step st a) = [].
Proof.
  destruct a as [clk req|clk req| |]; try discriminate; intros _.
  - unfold step, exec, committed, signed_quantity, record_of, add_inbound, py_int; open_upload.
    destruct (quantity req) as [q|].
    + rewrite update_inventory_inbound, find_item_begin.
      cbn [fst snd negb]. rewrite String.eqb_refl.
      destruct (find_item (item req) (df_inventory st)) as [[idx row]|] eqn:Hfind;
        cbn; repeat split.
      * rewrite (stock_of_write _ it _ _ _ _ _ Hfind).
        destruct (decide (item req = it)) as [<-|Hne]; cbn.
        -- rewrite (stock_of_found _ _ _ _ Hfind). reflexivity.
        -- lia.
      * rewrite (stock_of_new_row _ it _ _ _ Hfind).
        destruct (decide (item req = it)) as [<-|Hne]; cbn.
        -- rewrite (stock_of_absent _ _ Hfind). reflexivity.
        -- lia.
    + cbn. rewrite app_nil_r. repeat split. lia.
  - unfold step, exec, committed, signed_quantity, record_of, add_outbound, py_int; open_upload.
    destruct (quantity req) as [q|].
    + rewrite update_inventory_outbound, find_item_begin.
      destruct (find_item (item req) (df_inventory st)) as [[idx row]|] eqn:Hfind.
      * destruct (inv_stock row - q <? 0) eqn:Hneg.
        -- cbn [fst snd negb]. rewrite negative_stock_is_no_success.
           cbn. rewrite app_nil_r. repeat split. lia.
        -- cbn [fst snd negb]. rewrite String.eqb_refl. cbn. repeat split.
           rewrite (stock_of_write _ it _ _ _ _ _ Hfind).
           destruct (decide (item req = it)) as [<-|Hne]; cbn.
           ++ rewrite (stock_of_found _ _ _ _ Hfind). cbn. lia.
           ++ lia.
      * cbn [fst snd negb]. rewrite unknown_item_is_no_success.
        cbn. rewrite app_nil_r. repeat split. lia.
    + cbn. rewrite app_nil_r. repeat split. lia.
Qed.

(** ** C1: the stock against the committed requests *)

Lemma run_cons (st : State) (a : Action) (acts : list Action) :
  run st (a :: acts) = run (step st a) acts.
Proof. reflexivity. Qed.

Lemma run_snoc (st : State) (acts : list Action) (a : Action) :
  run st (acts ++ [a]) = step (run st acts) a.
Proof. unfold run. rewrite foldl_app. reflexivity. Qed.

Lemma net_quantity_cons (it : string) (a : Action) (acts : list Action) :
  net_quantity it (a :: acts) = signed_quantity it a + net_quantity it acts.
Proof. reflexivity. Qed.

Lemma run_transactions (acts : list Action) (st : State) (it : string) :
  forallb is_transaction acts = true →
  df_transactions (run st acts)
    = df_transactions st ++ flat_map record_of (committed_of st acts) ∧
  default 0 (stock_of it (df_inventory (run st acts)))
    = default 0 (stock_of it (df_inventory st))
      + net_quantity it (committed_of st acts).
Proof.
  revert st. induction acts as [|a acts IH]; intros st Hall.
  - cbn. rewrite app_nil_r. split; [reflexivity | lia].
  - cbn [forallb] in Hall. apply andb_prop in Hall as [Ha Hrest].
    rewrite run_cons. destruct (IH (step st a) Hrest) as [Hj Hs].
    destruct (transaction_effect st a it Ha) as (Hj1 & Hs1 & _).
    rewrite Hj, Hs, Hj1, Hs1. cbn [committed_of].
    destruct (committed st a); cbn [app flat_map].
    + rewrite net_quantity_cons, <- app_assoc. split; [reflexivity | lia].
    + rewrite app_nil_r. split; [reflexivity | lia].
Qed.

(** C1, as the code has it. The journal has no quantity column, so the
    quantities are those of the committed requests: after any sequence of
    inbound and outbound requests from the empty start, the journal holds
    one row for each committed request, in order, and the stock of an item
    is the sum of the quantities of its committed inbound requests minus
    that of its committed outbound requests; an item without a row has a
    net sum of zero. *)
Theorem stock_is_net_of_committed_requests (acts : list Action) (it : string) :
  forallb is_transaction acts = true →
  df_transactions (run initial_state acts)
    = flat_map record_of (committed_of initial_state acts) ∧
  match stock_of it (df_inventory (run initial_state acts)) with
  | Some q => q = net_quantity it (committed_of initial_state acts)
  | None => net_quantity it (committed_of initial_state acts) = 0
  end.
Proof.
  intros Hall. destruct (run_transactions acts initial_state it Hall) as [Hj Hs].
  split; [exact Hj|].
  change (stock_of it (df_inventory initial_state)) with (@None Z) in Hs.
  destruct (stock_of it (df_inventory (run initial_state acts))); cbn in Hs; lia.
Qed.

Lemma stock_is_net_of_committed_requests_witness :
  forallb is_transaction
    [Inbound clock0 (widget (Some 10)); Outbound clock1 (widget (Some 4));
     Outbound clock2 (widget (Some 100))] = true ∧
  match stock_of "widget"
          (df_inventory
             (run initial_state
                [Inbound clock0 (widget (Some 10)); Outbound clock1 (widget (Some 4));
                 Outbound clock2 (widget (Some 100))])) with
  | Some q => q = 6
  | None => False
  end.
Proof.
  split; [reflexivity|].
  exact (proj2 (stock_is_net_of_committed_requests
                  [Inbound clock0 (widget (Some 10)); Outbound clock1 (widget (Some 4));
                   Outbound clock2 (widget (Some 100))] "widget" eq_refl)).
Defined.

Example same_journal_different_stock :
  df_transactions (run initial_state [Inbound clock0 (widget (Some 10))])
    = df_transactions (run initial_state [Inbound clock0 (widget (Some 20))]) ∧
  stock_of "widget" (df_inventory (run initial_state [Inbound clock0 (widget (Some 10))]))
    = Some 10 ∧
  stock_of "widget" (df_inventory (run initial_state [Inbound clock0 (widget (Some 20))]))
    = Some 20.
Proof. repeat split. Qed.

(** C1, as the claim words it, fails: no reading of a quantity off the
    journal entries gives the stock.  An inbound request of 10 and one of 20
    leave the same journal and different stocks. *)
Lemma journal_does_not_record_quantities :
  ¬ ∃ recorded : TransactionRecord → Z,
      ∀ (acts : list Action) (it : string) (q : Z),
        forallb is_transaction acts = true →
        stock_of it (df_inventory (run initial_state acts)) = Some q →
        q = journal_net recorded it (df_transactions (run initial_state acts)).
Proof.
  intros [recorded H].
  pose proof (H [Inbound clock0 (widget (Some 10))] "widget" 10 eq_refl eq_refl) as H10.
  pose proof (H [Inbound clock0 (widget (Some 20))] "widget" 20 eq_refl eq_refl) as H20.
  vm_compute in H10, H20. rewrite <- H10 in H20. discriminate.
Qed.

(** ** C6: no negative stock *)

Lemma nonneg_write (inv : Inventory) (idx : nat) (row : InventoryRow) (now : Time) (n : Z) :
  nonneg_inventory inv → 0 ≤ n →
  nonneg_inventory (<[idx := write_stock now n row]> inv).
Proof. intros Hinv Hn. apply Forall_insert; assumption. Qed.

Lemma nonneg_row (inv : Inventory) (it : string) (idx : nat) (row : InventoryRow) :
  nonneg_inventory inv → find_item it inv = Some (idx, row) → 0 ≤ inv_stock row.
Proof.
  intros Hinv Hfind. apply find_item_row in Hfind as [Hl _].
  exact (Forall_lookup_1 _ _ _ _ Hinv Hl).
Qed.

Lemma transaction_nonneg (st : State) (a : Action) :
  is_transaction a = true → positive_quantity a →
  nonneg_inventory (df_inventory st) →
  nonneg_inventory (df_inventory (step st a)).
Proof.
  destruct a as [clk req|clk req| |]; try discriminate; intros _ Hpos Hinv;
    cbn [positive_quantity] in Hpos;
    destruct (quantity req) as [q|] eqn:Hq; try contradiction.
  - unfold step, exec, add_inbound, py_int; open_upload. rewrite Hq.
    rewrite update_inventory_inbound, find_item_begin.
    destruct (find_item (item req) (df_inventory st)) as [[idx row]|] eqn:Hfind; cbn.
    + apply nonneg_write; [assumption|].
      pose proof (nonneg_row _ _ _ _ Hinv Hfind). lia.
    + apply Forall_app. split; [assumption|].
      apply Forall_singleton. cbn. lia.
  - unfold step, exec, add_outbound, py_int; open_upload. rewrite Hq.
    rewrite update_inventory_outbound, find_item_begin.
    destruct (find_item (item req) (df_inventory st)) as [[idx row]|] eqn:Hfind;
      [|exact Hinv].
    destruct (inv_stock row - q <? 0) eqn:Hneg; [exact Hinv|].
    cbn. apply nonneg_write; [assumption|]. apply Z.ltb_ge in Hneg. lia.
Qed.

Lemma step_history_ok (st : State) (a : Action) :
  positive_quantity a → history_ok st → history_ok (step st a).
Proof.
  intros Hpos (Hinv & Hundo & Hredo).
  destruct a as [clk req|clk req| |].
  - destruct (transaction_effect st (Inbound clk req) EmptyString eq_refl)
      as (_ & _ & Hu & Hr).
    split; [apply transaction_nonneg; auto|]. rewrite Hu, Hr. split; auto.
  - destruct (transaction_effect st (Outbound clk req) EmptyString eq_refl)
      as (_ & _ & Hu & Hr).
    split; [apply transaction_nonneg; auto|]. rewrite Hu, Hr. split; auto.
  - unfold step, exec, undo_action.
    destruct (undo_stack st) as [|[j i] rest] eqn:Hstack; cbn.
    + unfold history_ok. rewrite Hstack. auto.
    + apply Forall_cons in Hundo as [Htop Hrest].
      unfold history_ok; cbn. split; [exact Htop|]. split; auto.
  - unfold step, exec, redo_action.
    destruct (redo_stack st) as [|[j i] rest] eqn:Hstack; cbn.
    + unfold history_ok. rewrite Hstack. auto.
    + apply Forall_cons in Hredo as [Htop Hrest].
      unfold history_ok; cbn. split; [exact Htop|]. split; auto.
Qed.

Lemma run_history_ok (acts : list Action) (st : State) :
  Forall positive_quantity acts → history_ok st → history_ok (run st acts).
Proof.
  revert st. induction acts as [|a acts IH]; intros st Hall Hok; [exact Hok|].
  apply Forall_cons in Hall as [Ha Hrest].
  rewrite run_cons. apply IH; [assumption|]. apply step_history_ok; assumption.
Qed.

Lemma initial_history_ok : history_ok initial_state.
Proof. repeat split; constructor. Qed.

(** C6. In every state reached from the empty start by inbound, outbound,
    undo and redo operations whose quantities are positive integers, no row
    of the inventory has a negative quantity; and there, an outbound request
    that would take the stock of its item below zero is refused with both
    tables as they were. *)
Theorem stock_never_negative (acts : list Action) :
  Forall positive_quantity acts →
  nonneg_inventory (df_inventory (run initial_state acts)) ∧
  ∀ (clk : Clock) (req : Request) (q : Z) (idx : nat) (row : InventoryRow),
    quantity req = Some q →
    find_item (item req) (df_inventory (run initial_state acts)) = Some (idx, row) →
    inv_stock row - q < 0 →
    snd (add_outbound clk req (run initial_state acts))
      = Return (msg_negative_stock (item req)) ∧
    df_inventory (fst (add_outbound clk req (run initial_state acts)))
      = df_inventory (run initial_state acts) ∧
    df_transactions (fst (add_outbound clk req (run initial_state acts)))
      = df_transactions (run initial_state acts).
Proof.
  intros Hall. split.
  - apply (run_history_ok acts initial_state Hall initial_history_ok).
  - intros clk req q idx row Hq Hfind Hneg.
    apply Z.ltb_lt in Hneg.
    unfold add_outbound, py_int; open_upload. rewrite Hq.
    rewrite update_inventory_outbound, find_item_begin, Hfind, Hneg.
    cbn. repeat split.
Qed.

Lemma stock_never_negative_witness :
  Forall positive_quantity
    [Inbound clock0 (widget (Some 10)); Outbound clock1 (widget (Some 4)); Undo; Redo] ∧
  nonneg_inventory
    (df_inventory
       (run initial_state
          [Inbound clock0 (widget (Some 10)); Outbound clock1 (widget (Some 4)); Undo; Redo])).
Proof.
  assert (H : Forall positive_quantity
    [Inbound clock0 (widget (Some 10)); Outbound clock1 (widget (Some 4)); Undo; Redo]).
  { repeat constructor. }
  split; [exact H|].
  exact (proj1 (stock_never_negative _ H)).
Defined.

(** ** C7, C8, C9: undo and redo *)

Lemma committed_is_transaction (st : State) (a : Action) :
  committed st a = true → is_transaction a = true.
Proof. destruct a; auto. Qed.

Lemma committed_records (acts : list Action) (st : State) :
  length (flat_map record_of (committed_of st acts)) = length (committed_of st acts) ∧
  (length (committed_of st acts) ≤ length acts)%nat.
Proof.
  revert st. induction acts as [|a acts IH]; intros st; [cbn; lia|].
  cbn [committed_of]. destruct (IH (step st a)) as [IH1 IH2].
  destruct (committed st a) eqn:Hc; cbn [app].
  - destruct a; try discriminate; cbn; rewrite IH1; lia.
  - cbn. lia.
Qed.

Lemma committed_of_snoc (acts : list Action) (st : State) (a : Action) :
  committed_of st (acts ++ [a])
  = committed_of st acts ++ (if committed (run st acts) a then [a] else []).
Proof.
  revert st. induction acts as [|b acts IH]; intros st.
  - cbn. rewrite app_nil_r. reflexivity.
  - cbn [app committed_of]. rewrite IH, run_cons, <- app_assoc. reflexivity.
Qed.

(** Every request, whatever its outcome, makes the undo stack one deeper. *)
Lemma requests_depth (acts : list Action) (st : State) :
  forallb is_transaction acts = true →
  length (undo_stack (run st acts)) = (length (undo_stack st) + length acts)%nat.
Proof.
  revert st. induction acts as [|a acts IH]; intros st Hall; [cbn; lia|].
  cbn [forallb] in Hall. apply andb_prop in Hall as [Ha Hrest].
  rewrite run_cons, (IH _ Hrest).
  destruct (transaction_effect st a EmptyString Ha) as (_ & _ & Hu & _).
  rewrite Hu. cbn. lia.
Qed.

(** C7, as the code has it. From a state with an empty journal and an empty
    undo stack, after a sequence of inbound and outbound requests of which
    [N] were committed and the last one is committed, requests that were
    refused or raised coming before it at will, undo succeeds and returns
    the journal it installs; that journal has [N - 1] rows; journal,
    inventory and undo stack are those that held before the last request,
    that is before the [N]-th committed transaction; the redo stack is one
    deeper than before the undo. *)
Theorem undo_restores_state_before_last_commit
    (st0 : State) (pre : list Action) (a : Action) :
  df_transactions st0 = [] →
  undo_stack st0 = [] →
  forallb is_transaction pre = true →
  committed (run st0 pre) a = true →
  ∃ st',
    undo_action (run st0 (pre ++ [a])) = (st', (msg_undo_ok, df_transactions st')) ∧
    S (length (df_transactions st')) = length (committed_of st0 (pre ++ [a])) ∧
    df_transactions st' = df_transactions (run st0 pre) ∧
    df_inventory st' = df_inventory (run st0 pre) ∧
    undo_stack st' = undo_stack (run st0 pre) ∧
    length (undo_stack st') = length pre ∧
    length (redo_stack st') = S (length (redo_stack (run st0 (pre ++ [a])))).
Proof.
  intros Hempty Hstack Hpre Ha.
  destruct (run_transactions pre st0 EmptyString Hpre) as [Hj _].
  destruct (committed_records pre st0) as [Hrec _].
  pose proof (requests_depth pre st0 Hpre) as Hdepth.
  rewrite Hstack in Hdepth. cbn in Hdepth.
  assert (Hlen : S (length (df_transactions (run st0 pre)))
                 = length (committed_of st0 (pre ++ [a]))).
  { rewrite committed_of_snoc, Ha, Hj, Hempty, !length_app, Hrec. cbn. lia. }
  rewrite run_snoc.
  destruct (transaction_effect (run st0 pre) a EmptyString
              (committed_is_transaction _ _ Ha)) as (_ & _ & Hu & Hr).
  exists (fst (undo_action (step (run st0 pre) a))).
  unfold undo_action. rewrite Hu. cbn. rewrite Hr. repeat split; assumption.
Qed.

Lemma undo_restores_state_before_last_commit_witness :
  df_transactions initial_state = [] ∧
  undo_stack initial_state = [] ∧
  forallb is_transaction
    [Inbound clock0 (widget (Some 10)); Outbound clock1 (widget (Some 100))] = true ∧
  committed
    (run initial_state
       [Inbound clock0 (widget (Some 10)); Outbound clock1 (widget (Some 100))])
    (Outbound clock2 (widget (Some 4))) = true ∧
  ∃ st',
    undo_action
      (run initial_state
         ([Inbound clock0 (widget (Some 10)); Outbound clock1 (widget (Some 100))]
          ++ [Outbound clock2 (widget (Some 4))]))
      = (st', (msg_undo_ok, df_transactions st')) ∧
    S (length (df_transactions st')) = 2%nat.
Proof.
  split; [reflexivity|]. split; [reflexivity|]. split; [reflexivity|].
  split; [reflexivity|].
  destruct (undo_restores_state_before_last_commit initial_state
              [Inbound clock0 (widget (Some 10)); Outbound clock1 (widget (Some 100))]
              (Outbound clock2 (widget (Some 4)))
              eq_refl eq_refl eq_refl eq_refl) as (st' & Hundo & Hlen & _).
  exists st'. split; [exact Hundo | exact Hlen].
Defined.

(** C7, as the claim words it, fails when a refused request follows the last
    commit: after ten widgets in, four out and a refused request for a
    hundred, two transactions are committed; undo reports success and leaves
    a journal of two rows, not one, and a stock of six, not the ten that
    were in stock before the second transaction. *)
Lemma undo_after_refused_request_keeps_tables :
  length (committed_of initial_state
            [Inbound clock0 (widget (Some 10)); Outbound clock1 (widget (Some 4));
             Outbound clock2 (widget (Some 100))]) = 2%nat ∧
  fst (snd (undo_action busy_state)) = msg_undo_ok ∧
  length (df_transactions (fst (undo_action busy_state))) = 2%nat ∧
  stock_of "widget" (df_inventory (fst (undo_action busy_state))) = Some 6 ∧
  stock_of "widget" (df_inventory stocked_state) = Some 10 ∧
  length (df_transactions stocked_state) = 1%nat.
Proof. vm_compute. repeat split. Qed.

(** C8. From a state with a snapshot on the undo stack, undo followed at
    once by redo succeeds and gives back the journal and the inventory of
    that state, and both stacks as they were. *)
Theorem redo_inverts_undo (st : State) :
  undo_stack st ≠ [] →
  fst (snd (redo_action (fst (undo_action st)))) = msg_redo_ok ∧
  df_transactions (fst (redo_action (fst (undo_action st)))) = df_transactions st ∧
  df_inventory (fst (redo_action (fst (undo_action st)))) = df_inventory st ∧
  undo_stack (fst (redo_action (fst (undo_action st)))) = undo_stack st ∧
  redo_stack (fst (redo_action (fst (undo_action st)))) = redo_stack st.
Proof.
  intros Hne. unfold undo_action.
  destruct (undo_stack st) as [|[j i] rest] eqn:Hstack; [contradiction|].
  cbn. repeat split.
Qed.

Lemma redo_inverts_undo_witness :
  undo_stack stocked_state ≠ [] ∧
  df_inventory (fst (redo_action (fst (undo_action stocked_state))))
    = df_inventory stocked_state.
Proof.
  assert (H : undo_stack stocked_state ≠ []) by discriminate.
  split; [exact H|].
  exact (proj1 (proj2 (proj2 (redo_inverts_undo stocked_state H)))).
Defined.

(** C9. In the state a committed inbound or outbound transaction leaves,
    whatever came before it, the redo stack is empty, and redo there fails
    with its no-history message and changes nothing. *)
Theorem commit_clears_redo (st : State) (a : Action) :
  committed st a = true →
  redo_stack (step st a) = [] ∧
  redo_action (step st a) = (step st a, (msg_no_redo, df_transactions (step st a))).
Proof.
  intros Ha.
  destruct (transaction_effect st a EmptyString (committed_is_transaction _ _ Ha))
    as (_ & _ & _ & Hr).
  split; [exact Hr|]. unfold redo_action. rewrite Hr. reflexivity.
Qed.

Lemma commit_clears_redo_witness :
  redo_stack undone_state ≠ [] ∧
  committed undone_state (Inbound clock1 (widget (Some 3))) = true ∧
  redo_stack (step undone_state (Inbound clock1 (widget (Some 3)))) = [].
Proof.
  split; [discriminate|]. split; [reflexivity|].
  exact (proj1 (commit_clears_redo undone_state (Inbound clock1 (widget (Some 3))) eq_refl)).
Defined.

(** ** C2, C3: what a refused or malformed request leaves behind *)

(** C2, as the code has it. When the ledger apply of a request fails, the
    call returns the error message of the apply; journal and inventory are
    as before the request; the two CSV files are as before too, unless the
    request carries an upload that is saved under the name of one of them;
    the snapshot pushed before the apply stays on the undo stack and the
    redo stack stays cleared. *)
Theorem rejected_apply_keeps_tables_and_snapshot
    (st st1 : State) (a : Action) (msg : string) :
  ledger_apply st a = Some (st1, (false, msg)) →
  snd (exec st a) = Return msg ∧
  df_transactions (step st a) = df_transactions st ∧
  df_inventory (step st a) = df_inventory st ∧
  (overwrites_csv a = false →
   csv_transactions (step st a) = csv_transactions st ∧
   csv_inventory (step st a) = csv_inventory st) ∧
  undo_stack (step st a) = (df_transactions st, df_inventory st) :: undo_stack st ∧
  redo_stack (step st a) = [].
Proof.
  destruct a as [clk req|clk req| |]; cbn [ledger_apply]; try discriminate.
  - unfold py_int. destruct (quantity req) as [q|]; [|discriminate].
    cbn [fmap option_fmap option_map]. rewrite update_inventory_inbound. discriminate.
  - unfold before_apply, step, exec, add_outbound, py_int; open_upload.
    destruct (quantity req) as [q|]; [|discriminate].
    cbn [fmap option_fmap option_map fst].
    rewrite update_inventory_outbound, find_item_begin.
    assert (Hfiles : overwrites_csv (Outbound clk req) = false →
              csv_transactions (save_upload (image req) (begin_transaction clk st))
                = csv_transactions st ∧
              csv_inventory (save_upload (image req) (begin_transaction clk st))
                = csv_inventory st).
    { intros Hsafe.
      exact (save_upload_keeps_csv _ clk req (begin_transaction clk st)
               (or_intror eq_refl) Hsafe). }
    destruct (find_item (item req) (df_inventory st)) as [[idx row]|];
      [destruct (inv_stock row - q <? 0); [|discriminate]|];
      intros [= <- <-]; cbn [fst snd negb];
      (split; [reflexivity|]); (split; [reflexivity|]); (split; [reflexivity|]);
      (split; [exact Hfiles|]); split; reflexivity.
Qed.

Lemma rejected_apply_keeps_tables_and_snapshot_witness :
  ledger_apply stocked_state (Outbound clock1 (widget (Some 11)))
    = Some (begin_transaction clock1 stocked_state, (false, msg_negative_stock "widget")) ∧
  df_inventory (step stocked_state (Outbound clock1 (widget (Some 11))))
    = df_inventory stocked_state ∧
  length (undo_stack (step stocked_state (Outbound clock1 (widget (Some 11))))) = 2%nat.
Proof.
  split; [reflexivity|].
  destruct (rejected_apply_keeps_tables_and_snapshot stocked_state
              (begin_transaction clock1 stocked_state)
              (Outbound clock1 (widget (Some 11))) (msg_negative_stock "widget") eq_refl)
    as (_ & _ & Hinv & _ & Hundo & _).
  split; [exact Hinv|]. rewrite Hundo. reflexivity.
Defined.

(** C2, as the claim words it, fails: after an undo, an outbound request
    for an item that has no row is refused by the apply, and yet the undo
    stack has gained a snapshot and the redo stack has lost its own. *)
Lemma rejected_outbound_changes_stacks :
  (λ r, fst (snd r)) <$> ledger_apply undone_state (Outbound clock2 (widget (Some 1)))
    = Some false ∧
  undo_stack undone_state = [] ∧
  undo_stack (step undone_state (Outbound clock2 (widget (Some 1)))) = [([], [])] ∧
  redo_stack undone_state ≠ [] ∧
  redo_stack (step undone_state (Outbound clock2 (widget (Some 1)))) = [].
Proof. repeat split. discriminate. Qed.

(** C3, as the code has it. Every inbound or outbound request, whatever its
    quantity, first logs the CSV files, pushes the live pair on the undo
    stack and clears the redo stack.  Only then is the quantity converted,
    and it is never compared with zero: without an integer the call raises
    and leaves journal and inventory as they were; with an integer, positive
    or not, the apply receives it as it is and the request is committed
    exactly when the apply accepts it. *)
Theorem quantity_is_not_validated (st : State) (a : Action) :
  is_transaction a = true →
  (∃ stamp, log_stamp a = Some stamp ∧
     log_folder (step st a)
       = <[stamp := (csv_transactions st, csv_inventory st)]> (log_folder st)) ∧
  undo_stack (step st a) = (df_transactions st, df_inventory st) :: undo_stack st ∧
  redo_stack (step st a) = [] ∧
  match ledger_apply st a with
  | None =>
      snd (exec st a) = Raise "TypeError" ∧
      df_transactions (step st a) = df_transactions st ∧
      df_inventory (step st a) = df_inventory st
  | Some (st1, (ok, msg)) =>
      committed st a = ok ∧
      df_inventory (step st a) = df_inventory st1 ∧
      df_transactions (step st a) = df_transactions st ++ (if ok then record_of a else [])
  end.
Proof.
  intros Ha.
  destruct (transaction_effect st a EmptyString Ha) as (Hj & _ & Hu & Hr).
  split; [|split; [exact Hu|split; [exact Hr|]]].
  - destruct a as [clk req|clk req| |]; try discriminate;
      exists (t_log clk); (split; [reflexivity|]).
    + unfold step, exec, add_inbound, py_int; open_upload.
      destruct (quantity req) as [q|]; [|reflexivity].
      rewrite update_inventory_inbound. reflexivity.
    + unfold step, exec, add_outbound, py_int; open_upload.
      destruct (quantity req) as [q|]; [|reflexivity].
      rewrite update_inventory_outbound, find_item_begin.
      destruct (find_item (item req) (df_inventory st)) as [[idx row]|];
        [destruct (inv_stock row - q <? 0)|]; reflexivity.
  - destruct a as [clk req|clk req| |]; try discriminate.
    + unfold ledger_apply, before_apply, step, exec, committed, record_of, add_inbound, py_int; open_upload.
      destruct (quantity req) as [q|]; [|repeat split].
      cbn [fmap option_fmap option_map]. rewrite update_inventory_inbound.
      cbn [fst snd negb]. rewrite String.eqb_refl. repeat split.
    + unfold ledger_apply, before_apply, step, exec, committed, record_of, add_outbound, py_int; open_upload.
      destruct (quantity req) as [q|]; [|repeat split].
      cbn [fmap option_fmap option_map].
      rewrite update_inventory_outbound, find_item_begin.
      destruct (find_item (item req) (df_inventory st)) as [[idx row]|];
        [destruct (inv_stock row - q <? 0)|]; cbn [fst snd negb].
      * rewrite negative_stock_is_no_success. cbn. rewrite app_nil_r. repeat split.
      * rewrite String.eqb_refl. repeat split.
      * rewrite unknown_item_is_no_success. cbn. rewrite app_nil_r. repeat split.
Qed.

Lemma quantity_is_not_validated_witness :
  is_transaction (Inbound clock2 (widget (Some 0))) = true ∧
  undo_stack (step stocked_state (Inbound clock2 (widget (Some 0))))
    = (df_transactions stocked_state, df_inventory stocked_state)
      :: undo_stack stocked_state.
Proof.
  split; [reflexivity|].
  exact (proj1 (proj2 (quantity_is_not_validated stocked_state
                         (Inbound clock2 (widget (Some 0))) eq_refl))).
Defined.

(** C3, as the claim words it, fails: after an undo, an inbound request with
    quantity -5 is not rejected.  The files are logged, a snapshot is pushed,
    the redo stack is cleared, the journal gains a row and the inventory a
    row with quantity -5. *)
Lemma negative_quantity_is_processed :
  quantity (widget (Some (-5))) = Some (-5) ∧
  snd (add_inbound clock2 (widget (Some (-5))) undone_state) = Return msg_inbound_ok ∧
  log_folder undone_state !! t_log clock2 = None ∧
  log_folder (fst (add_inbound clock2 (widget (Some (-5))) undone_state)) !! t_log clock2
    = Some (Saved [], Saved []) ∧
  undo_stack undone_state = [] ∧
  undo_stack (fst (add_inbound clock2 (widget (Some (-5))) undone_state)) = [([], [])] ∧
  redo_stack undone_state ≠ [] ∧
  redo_stack (fst (add_inbound clock2 (widget (Some (-5))) undone_state)) = [] ∧
  df_transactions undone_state = [] ∧
  length (df_transactions (fst (add_inbound clock2 (widget (Some (-5))) undone_state)))
    = 1%nat ∧
  df_inventory undone_state = [] ∧
  stock_of "widget" (df_inventory (fst (add_inbound clock2 (widget (Some (-5))) undone_state)))
    = Some (-5).
Proof. vm_compute. repeat split. discriminate. Qed.

(** * Further properties of the code *)

(** ** The CSV files and the log folder *)

(** A request that is not committed leaves both live tables as they were. *)
Lemma uncommitted_tables (st : State) (a : Action) :
  is_transaction a = true → committed st a = false → tables (step st a) = tables st.
Proof.
  destruct a as [clk req|clk req| |]; try discriminate; intros _.
  - unfold step, exec, committed, add_inbound, py_int; open_upload.
    destruct (quantity req) as [q|]; [|reflexivity].
    rewrite update_inventory_inbound. cbn [fst snd negb].
    rewrite String.eqb_refl. discriminate.
  - unfold step, exec, committed, add_outbound, py_int; open_upload.
    destruct (quantity req) as [q|]; [|reflexivity].
    rewrite update_inventory_outbound, find_item_begin.
    destruct (find_item (item req) (df_inventory st)) as [[idx row]|];
      [destruct (inv_stock row - q <? 0)|]; cbn [fst snd negb];
      try reflexivity.
    rewrite String.eqb_refl. discriminate.
Qed.

(** One operation either saves both tables, or changes no table and, unless
    it saves an upload under the name of a CSV file, no CSV file. *)
Lemma step_files (st : State) (a : Action) :
  synced (step st a) ∨
  (tables (step st a) = tables st ∧
   (overwrites_csv a = false →
    csv_transactions (step st a) = csv_transactions st ∧
    csv_inventory (step st a) = csv_inventory st)).
Proof.
  destruct a as [clk req|clk req| |].
  - unfold step, exec, add_inbound, py_int; open_upload.
    destruct (quantity req) as [q|]; [|right; repeat split].
    rewrite update_inventory_inbound. left. split; reflexivity.
  - assert (Hfiles : overwrites_csv (Outbound clk req) = false →
              csv_transactions (save_upload (image req) (begin_transaction clk st))
                = csv_transactions st ∧
              csv_inventory (save_upload (image req) (begin_transaction clk st))
                = csv_inventory st).
    { intros Hsafe.
      exact (save_upload_keeps_csv _ clk req (begin_transaction clk st)
               (or_intror eq_refl) Hsafe). }
    unfold step, exec, add_outbound, py_int; open_upload.
    destruct (quantity req) as [q|]; [|right; repeat split].
    rewrite update_inventory_outbound, find_item_begin.
    destruct (find_item (item req) (df_inventory st)) as [[idx row]|];
      [destruct (inv_stock row - q <? 0)|]; cbn [fst snd negb].
    + right. split; [reflexivity | exact Hfiles].
    + left. split; reflexivity.
    + right. split; [reflexivity | exact Hfiles].
  - unfold step, exec, undo_action.
    destruct (undo_stack st) as [|[j i] rest];
      [right; repeat split | left; split; reflexivity].
  - unfold step, exec, redo_action.
    destruct (redo_stack st) as [|[j i] rest];
      [right; repeat split | left; split; reflexivity].
Qed.

Lemma step_synced (st : State) (a : Action) :
  overwrites_csv a = false → synced st → synced (step st a).
Proof.
  intros Hsafe [Ht Hi].
  destruct (step_files st a) as [Hs|[Htab Hfiles]]; [exact Hs|].
  destruct (Hfiles Hsafe) as [Hct Hci].
  assert (Hj : df_transactions (step st a) = df_transactions st)
    by exact (f_equal fst Htab).
  assert (Hv : df_inventory (step st a) = df_inventory st)
    by exact (f_equal snd Htab).
  split; congruence.
Qed.

(** A committed request saves both tables after it has saved its upload. *)
Lemma committed_saves (st : State) (a : Action) :
  committed st a = true → synced (step st a).
Proof.
  intros Hc. destruct (step_files st a) as [Hs|[Htab _]]; [exact Hs|].
  assert (Ha : is_transaction a = true) by (destruct a; auto).
  destruct (transaction_effect st a EmptyString Ha) as (Hj & _).
  rewrite Hc in Hj. apply (f_equal fst) in Htab. cbn in Htab.
  rewrite Htab in Hj. apply (f_equal length) in Hj.
  rewrite length_app in Hj. destruct a; try discriminate; cbn in Hj; lia.
Qed.

(** X1. The CSV files follow the live tables as long as no upload is saved
    over them: if both files hold the live tables, they still do after any
    sequence of inbound, outbound, undo and redo operations, committed,
    refused or raising, in which no request carries an upload whose base
    name is that of a CSV file.  And whatever the files held, after a
    committed request they hold the live tables, since both are saved after
    the upload is written. *)
Theorem files_follow_tables (st : State) (acts : list Action) :
  (forallb (λ a, negb (overwrites_csv a)) acts = true →
   synced st → synced (run st acts)) ∧
  (∀ a, committed st a = true → synced (step st a)).
Proof.
  split; [|intros a; apply committed_saves].
  revert st. induction acts as [|a acts IH]; intros st Hall Hs; [exact Hs|].
  cbn [forallb] in Hall. apply andb_prop in Hall as [Ha Hrest].
  rewrite run_cons. apply IH; [exact Hrest|].
  apply step_synced; [|exact Hs]. apply negb_true_iff, Ha.
Qed.

Lemma files_follow_tables_witness :
  forallb (λ a, negb (overwrites_csv a))
    [Inbound clock0 (widget (Some 10)); Outbound clock1 (widget (Some 40));
     Undo; Outbound clock2 (widget None)] = true ∧
  synced initial_state ∧
  synced (run initial_state
            [Inbound clock0 (widget (Some 10)); Outbound clock1 (widget (Some 40));
             Undo; Outbound clock2 (widget None)]).
Proof.
  assert (H : synced initial_state) by (split; reflexivity).
  split; [reflexivity|]. split; [exact H|].
  exact (proj1 (files_follow_tables initial_state
                  [Inbound clock0 (widget (Some 10)); Outbound clock1 (widget (Some 40));
                   Undo; Outbound clock2 (widget None)]) eq_refl H).
Defined.

(** A refused request whose upload is named like the journal file leaves
    that file holding the upload: nothing is saved on the refused path. *)
Example refused_request_overwrites_journal_file :
  snd (add_outbound clock1 (with_upload (widget (Some 40)) stray_upload) stocked_state)
    = Return (msg_negative_stock "widget") ∧
  df_transactions (fst (add_outbound clock1 (with_upload (widget (Some 40)) stray_upload)
                          stocked_state))
    = df_transactions stocked_state ∧
  csv_transactions stocked_state = Saved (df_transactions stocked_state) ∧
  csv_transactions (fst (add_outbound clock1 (with_upload (widget (Some 40)) stray_upload)
                           stocked_state))
    = Uploaded "not a journal".
Proof. vm_compute. repeat split. Qed.

Lemma step_log (st : State) (a : Action) :
  log_folder (step st a) =
  match log_stamp a with
  | Some stamp => <[stamp := (csv_transactions st, csv_inventory st)]> (log_folder st)
  | None => log_folder st
  end.
Proof.
  destruct a as [clk req|clk req| |]; cbn [log_stamp].
  - unfold step, exec, add_inbound, py_int; open_upload.
    destruct (quantity req) as [q|]; [|reflexivity].
    rewrite update_inventory_inbound. reflexivity.
  - unfold step, exec, add_outbound, py_int; open_upload.
    destruct (quantity req) as [q|]; [|reflexivity].
    rewrite update_inventory_outbound, find_item_begin.
    destruct (find_item (item req) (df_inventory st)) as [[idx row]|];
      [destruct (inv_stock row - q <? 0)|]; reflexivity.
  - unfold step, exec, undo_action.
    destruct (undo_stack st) as [|[j i] rest]; reflexivity.
  - unfold step, exec, redo_action.
    destruct (redo_stack st) as [|[j i] rest]; reflexivity.
Qed.

(** X2. With the files holding the live tables, the copy a request logs
    under its stamp is the pair of tables as they were before the request;
    a second request logging under the same stamp replaces that copy by the
    two files as the first request left them, so the earlier copy is lost;
    these files are the tables the first request left when it was committed
    or carried no upload named like a CSV file. *)
Theorem log_holds_tables_before_request
    (st : State) (a b : Action) (stamp : string) :
  synced st →
  log_stamp a = Some stamp →
  log_stamp b = Some stamp →
  log_folder (step st a) !! stamp = Some (saved (tables st)) ∧
  log_folder (step (step st a) b)
    = <[stamp := (csv_transactions (step st a), csv_inventory (step st a))]>
        (log_folder st) ∧
  (committed st a = true ∨ overwrites_csv a = false →
   log_folder (step (step st a) b)
     = <[stamp := saved (tables (step st a))]> (log_folder st)).
Proof.
  intros [Ht Hi] Ha Hb. rewrite !step_log, Ha, Hb.
  split; [|split].
  - rewrite Ht, Hi. apply lookup_insert_eq.
  - apply insert_insert_eq.
  - intros Hok.
    assert (Hs : synced (step st a)).
    { destruct Hok as [Hc|Hsafe];
        [apply committed_saves, Hc | apply step_synced; [exact Hsafe | split; assumption]]. }
    destruct Hs as [Ht' Hi']. rewrite Ht', Hi'. apply insert_insert_eq.
Qed.

Lemma log_holds_tables_before_request_witness :
  synced initial_state ∧
  log_stamp (Inbound clock0 (widget (Some 10))) = Some "20250101090000" ∧
  log_stamp (Outbound clock0 (widget (Some 4))) = Some "20250101090000" ∧
  log_folder (step initial_state (Inbound clock0 (widget (Some 10)))) !! "20250101090000"
    = Some (saved (tables initial_state)).
Proof.
  assert (H : synced initial_state) by (split; reflexivity).
  split; [exact H|]. split; [reflexivity|]. split; [reflexivity|].
  exact (proj1 (log_holds_tables_before_request initial_state
                  (Inbound clock0 (widget (Some 10))) (Outbound clock0 (widget (Some 4)))
                  "20250101090000" H eq_refl eq_refl)).
Defined.

(** X3. The log folder only grows, and only requests feed it: after any
    sequence of operations the stamps in the folder are those it had with
    the stamps of the inbound and outbound requests of the sequence, be they
    committed or not; undo and redo log nothing. *)
Theorem log_folder_stamps (acts : list Action) (st : State) :
  dom (log_folder (run st acts)) = dom (log_folder st) ∪ log_stamps acts.
Proof.
  revert st. induction acts as [|a acts IH]; intros st.
  - unfold log_stamps. cbn. set_solver.
  - rewrite run_cons, IH, step_log. unfold log_stamps. cbn [omap list_omap].
    destruct (log_stamp a) as [stamp|].
    + rewrite dom_insert_L. cbn [list_to_set]. set_solver.
    + reflexivity.
Qed.

(** ** Undo and redo along the timeline *)

Lemma undo_memory (st : State) :
  memory (step st Undo) =
  match undo_stack st with
  | [] => memory st
  | state :: rest => (state, rest, tables st :: redo_stack st)
  end.
Proof.
  unfold step, exec, undo_action.
  destruct (undo_stack st) as [|[j i] rest] eqn:Hstack; cbn.
  - unfold memory. rewrite Hstack. reflexivity.
  - reflexivity.
Qed.

Lemma redo_memory (st : State) :
  memory (step st Redo) =
  match redo_stack st with
  | [] => memory st
  | state :: rest => (state, tables st :: undo_stack st, rest)
  end.
Proof.
  unfold step, exec, redo_action.
  destruct (redo_stack st) as [|[j i] rest] eqn:Hstack; cbn.
  - unfold memory. rewrite Hstack. reflexivity.
  - reflexivity.
Qed.

Lemma memory_eq (st : State) (t : Snapshot) (u r : list Snapshot) :
  memory st = (t, u, r) → tables st = t ∧ undo_stack st = u ∧ redo_stack st = r.
Proof.
  intros H. split; [exact (f_equal (λ m, fst (fst m)) H)|].
  split; [exact (f_equal (λ m, snd (fst m)) H) | exact (f_equal snd H)].
Qed.

(** The memory an undo or a redo leaves depends on the memory alone. *)
Lemma history_move_memory (st st' : State) (a : Action) :
  is_history_move a = true →
  memory st = memory st' → memory (step st a) = memory (step st' a).
Proof.
  intros Ha Hm. unfold memory, tables in Hm. injection Hm as Hj Hi Hu Hr.
  destruct a; try discriminate;
    rewrite ?undo_memory, ?redo_memory; unfold memory, tables;
    rewrite Hj, Hi, Hu, Hr; reflexivity.
Qed.

(** X4. Undo and redo never drop or alter a snapshot: over any sequence of
    undo and redo operations, with or without history to move along, the
    pairs held by the undo stack, the live tables and the redo stack form
    the same list, oldest first. *)
Theorem undo_redo_keep_timeline (acts : list Action) (st : State) :
  forallb is_history_move acts = true →
  timeline (run st acts) = timeline st.
Proof.
  revert st. induction acts as [|a acts IH]; intros st Hall; [reflexivity|].
  cbn [forallb] in Hall. apply andb_prop in Hall as [Ha Hrest].
  rewrite run_cons, (IH _ Hrest). clear IH Hrest.
  destruct a; try discriminate.
  - pose proof (undo_memory st) as Hm.
    destruct (undo_stack st) as [|s rest] eqn:Hs;
      apply memory_eq in Hm as (Ht & Hu & Hr); unfold timeline;
      rewrite Ht, Hu, Hr; [rewrite Hs; reflexivity|].
    rewrite Hs, reverse_cons, <- app_assoc. reflexivity.
  - pose proof (redo_memory st) as Hm.
    destruct (redo_stack st) as [|s rest] eqn:Hs;
      apply memory_eq in Hm as (Ht & Hu & Hr); unfold timeline;
      rewrite Ht, Hu, Hr; [rewrite Hs; reflexivity|].
    rewrite Hs, reverse_cons, <- app_assoc. reflexivity.
Qed.

Lemma undo_redo_keep_timeline_witness :
  forallb is_history_move [Undo; Undo; Redo; Undo; Redo; Redo; Redo] = true ∧
  timeline (run stocked_state [Undo; Undo; Redo; Undo; Redo; Redo; Redo])
    = timeline stocked_state.
Proof.
  split; [reflexivity|].
  exact (undo_redo_keep_timeline [Undo; Undo; Redo; Undo; Redo; Redo; Redo]
           stocked_state eq_refl).
Defined.

(** X5. Redo is undone by undo: from a state with a snapshot on the redo
    stack, redo followed at once by undo gives back the live tables and both
    stacks. *)
Theorem undo_inverts_redo (st : State) :
  redo_stack st ≠ [] →
  memory (step (step st Redo) Undo) = memory st.
Proof.
  intros Hne. rewrite undo_memory.
  pose proof (redo_memory st) as Hm.
  destruct (redo_stack st) as [|s rest] eqn:Hs; [contradiction|].
  apply memory_eq in Hm as (Ht & Hu & Hr).
  rewrite Hu, Ht, Hr. unfold memory. rewrite Hs. reflexivity.
Qed.

Lemma undo_inverts_redo_witness :
  redo_stack undone_state ≠ [] ∧
  memory (step (step undone_state Redo) Undo) = memory undone_state.
Proof.
  assert (H : redo_stack undone_state ≠ []) by discriminate.
  split; [exact H|]. exact (undo_inverts_redo undone_state H).
Defined.

Lemma run_app (st : State) (acts acts' : list Action) :
  run st (acts ++ acts') = run (run st acts) acts'.
Proof. unfold run. apply foldl_app. Qed.

Lemma run_history_moves_memory (acts : list Action) (st st' : State) :
  forallb is_history_move acts = true →
  memory st = memory st' → memory (run st acts) = memory (run st' acts).
Proof.
  revert st st'. induction acts as [|a acts IH]; intros st st' Hall Hm; [exact Hm|].
  cbn [forallb] in Hall. apply andb_prop in Hall as [Ha Hrest].
  rewrite !run_cons. apply IH; [exact Hrest|]. apply history_move_memory; assumption.
Qed.

(** X6. As many redos as undos: when the undo stack holds at least [k]
    snapshots, [k] undos followed by [k] redos give back the live tables and
    both stacks. *)
Theorem undos_then_redos_restore (k : nat) (st : State) :
  (k ≤ length (undo_stack st))%nat →
  memory (run st (repeat Undo k ++ repeat Redo k)) = memory st.
Proof.
  revert st. induction k as [|k IH]; intros st Hk; [reflexivity|].
  destruct (undo_stack st) as [|s rest] eqn:Hs; [cbn in Hk; lia|].
  pose proof (undo_memory st) as Hm. rewrite Hs in Hm.
  apply memory_eq in Hm as (Ht & Hu & Hr).
  assert (Hone : memory (step (step st Undo) Redo) = memory st).
  { rewrite redo_memory, Hr, Ht, Hu. unfold memory. rewrite Hs. reflexivity. }
  assert (Hdepth : (k ≤ length (undo_stack (step st Undo)))%nat).
  { rewrite Hu. cbn in Hk. lia. }
  change (repeat Undo (S k)) with (Undo :: repeat Undo k).
  change (repeat Redo (S k)) with (Redo :: repeat Redo k).
  rewrite (repeat_cons k Redo).
  cbn [app]. rewrite run_cons, app_assoc, run_snoc.
  rewrite <- Hone. apply (history_move_memory _ _ Redo eq_refl).
  apply IH, Hdepth.
Qed.

Lemma undos_then_redos_restore_witness :
  (2 ≤ length (undo_stack busy_state))%nat ∧
  memory (run busy_state (repeat Undo 2 ++ repeat Redo 2)) = memory busy_state.
Proof.
  assert (H : (2 ≤ length (undo_stack busy_state))%nat) by (vm_compute; lia).
  split; [exact H|].
  exact (undos_then_redos_restore 2 busy_state H).
Defined.

(** ** Requests and the undo stack *)

Lemma drop_cons_inv {A} (n : nat) (l rest : list A) (x : A) :
  drop n l = x :: rest → l !! n = Some x ∧ drop (S n) l = rest.
Proof.
  revert l. induction n as [|n IH]; intros [|y l] H; try discriminate.
  - injection H as -> ->. auto.
  - apply (IH l H).
Qed.

(** Every request, committed or not, pushes the tables it found. *)
Lemma requests_push (acts : list Action) (st : State) :
  forallb is_transaction acts = true →
  (tables (run st acts) :: undo_stack (run st acts)) !! length acts = Some (tables st) ∧
  drop (length acts) (undo_stack (run st acts)) = undo_stack st.
Proof.
  revert st. induction acts as [|a acts IH]; intros st Hall; [auto|].
  cbn [forallb] in Hall. apply andb_prop in Hall as [Ha Hrest].
  rewrite run_cons. destruct (IH (step st a) Hrest) as [_ Hdrop].
  destruct (transaction_effect st a EmptyString Ha) as (_ & _ & Hu & _).
  rewrite Hu in Hdrop. apply drop_cons_inv in Hdrop as [Hl Hd].
  split; [exact Hl | exact Hd].
Qed.

Lemma undos_walk_back (k : nat) (st : State) :
  (k ≤ length (undo_stack st))%nat →
  (tables st :: undo_stack st) !! k = Some (tables (run st (repeat Undo k))) ∧
  undo_stack (run st (repeat Undo k)) = drop k (undo_stack st) ∧
  length (redo_stack (run st (repeat Undo k))) = (length (redo_stack st) + k)%nat.
Proof.
  revert st. induction k as [|k IH]; intros st Hk.
  - cbn. auto.
  - destruct (undo_stack st) as [|s rest] eqn:Hs; [cbn in Hk; lia|].
    pose proof (undo_memory st) as Hm. rewrite Hs in Hm.
    apply memory_eq in Hm as (Ht & Hu & Hr).
    change (repeat Undo (S k)) with (Undo :: repeat Undo k). rewrite run_cons.
    destruct (IH (step st Undo)) as (Hl & Hd & Hlen).
    { rewrite Hu. cbn in Hk. lia. }
    rewrite Ht, Hu in Hl. rewrite Hu in Hd. rewrite Hr in Hlen.
    split; [exact Hl|]. split; [exact Hd|]. rewrite Hlen. cbn. lia.
Qed.

(** X7. Undo walks back over requests one by one, whatever their outcome:
    after [N] inbound or outbound requests, committed, refused or raising,
    [N] undos give back the live tables and the undo stack from before the
    first of them, and leave [N] more snapshots on the redo stack. *)
Theorem undos_walk_back_over_requests (acts : list Action) (st : State) :
  forallb is_transaction acts = true →
  tables (run (run st acts) (repeat Undo (length acts))) = tables st ∧
  undo_stack (run (run st acts) (repeat Undo (length acts))) = undo_stack st ∧
  length (redo_stack (run (run st acts) (repeat Undo (length acts))))
    = (length (redo_stack (run st acts)) + length acts)%nat.
Proof.
  intros Hall. destruct (requests_push acts st Hall) as [Hl Hd].
  assert (Hk : (length acts ≤ length (undo_stack (run st acts)))%nat).
  { apply lookup_lt_Some in Hl. cbn in Hl. lia. }
  destruct (undos_walk_back _ _ Hk) as (Hl' & Hd' & Hlen).
  rewrite Hl in Hl'. assert (Ht : tables st = tables (run (run st acts) (repeat Undo (length acts))))
    by congruence.
  split; [symmetry; exact Ht|]. split; [rewrite Hd'; exact Hd | exact Hlen].
Qed.

Lemma undos_walk_back_over_requests_witness :
  forallb is_transaction
    [Inbound clock0 (widget (Some 10)); Outbound clock1 (widget (Some 40));
     Outbound clock2 (widget None)] = true ∧
  tables (run (run initial_state
                 [Inbound clock0 (widget (Some 10)); Outbound clock1 (widget (Some 40));
                  Outbound clock2 (widget None)])
              (repeat Undo 3)) = tables initial_state.
Proof.
  split; [reflexivity|].
  exact (proj1 (undos_walk_back_over_requests
                  [Inbound clock0 (widget (Some 10)); Outbound clock1 (widget (Some 40));
                   Outbound clock2 (widget None)] initial_state eq_refl)).
Defined.

(** X8. Undo after a request that was not committed, refused or raising,
    reports success and changes no table: the request left the tables as
    they were, the undo installs the very same tables, takes the snapshot
    of the request back off the undo stack and puts a copy on the redo
    stack. *)
Theorem undo_after_uncommitted_request (st : State) (a : Action) :
  is_transaction a = true →
  committed st a = false →
  tables (step st a) = tables st ∧
  fst (snd (undo_action (step st a))) = msg_undo_ok ∧
  memory (step (step st a) Undo) = (tables st, undo_stack st, [tables st]).
Proof.
  intros Ha Hc. pose proof (uncommitted_tables st a Ha Hc) as Ht.
  destruct (transaction_effect st a EmptyString Ha) as (_ & _ & Hu & Hr).
  split; [exact Ht|]. split.
  - unfold undo_action. rewrite Hu. reflexivity.
  - rewrite undo_memory, Hu, Hr, Ht. reflexivity.
Qed.

Lemma undo_after_uncommitted_request_witness :
  is_transaction (Outbound clock1 (widget (Some 40))) = true ∧
  committed stocked_state (Outbound clock1 (widget (Some 40))) = false ∧
  fst (snd (undo_action (step stocked_state (Outbound clock1 (widget (Some 40))))))
    = msg_undo_ok ∧
  tables (step (step stocked_state (Outbound clock1 (widget (Some 40)))) Undo)
    = tables stocked_state.
Proof.
  split; [reflexivity|]. split; [reflexivity|].
  destruct (undo_after_uncommitted_request stocked_state
              (Outbound clock1 (widget (Some 40))) eq_refl eq_refl) as (_ & Hmsg & Hm).
  split; [exact Hmsg|]. exact (proj1 (memory_eq _ _ _ _ Hm)).
Defined.

(** ** The journal under requests *)

(** X9. Requests only append to the journal: over any sequence of inbound
    and outbound requests the rows the journal had stay in place, unchanged
    and in order, and exactly one row is added for each committed request,
    none for a refused or raising one. *)
Theorem journal_is_append_only (acts : list Action) (st : State) :
  forallb is_transaction acts = true →
  df_transactions st `prefix_of` df_transactions (run st acts) ∧
  length (df_transactions (run st acts))
    = (length (df_transactions st) + length (committed_of st acts))%nat ∧
  (length (committed_of st acts) ≤ length acts)%nat.
Proof.
  intros Hall. destruct (run_transactions acts st EmptyString Hall) as [Hj _].
  destruct (committed_records acts st) as [Hlen Hle].
  rewrite Hj. split; [apply prefix_app_r; reflexivity|].
  rewrite length_app, Hlen. auto.
Qed.

Lemma journal_is_append_only_witness :
  forallb is_transaction
    [Outbound clock1 (widget (Some 4)); Outbound clock2 (widget (Some 90))] = true ∧
  length (df_transactions busy_state) = 2%nat.
Proof.
  split; [reflexivity|].
  exact (proj1 (proj2 (journal_is_append_only
                         [Outbound clock1 (widget (Some 4)); Outbound clock2 (widget (Some 90))]
                         stocked_state eq_refl))).
Defined.

(** ** The rows of the inventory *)

Lemma items_write (it : string) (inv : Inventory) (idx : nat) (row : InventoryRow)
    (now : Time) (n : Z) :
  find_item it inv = Some (idx, row) →
  inv_item <$> <[idx := write_stock now n row]> inv = inv_item <$> inv.
Proof.
  intros Hfind. apply find_item_row in Hfind as [Hl _].
  rewrite list_fmap_insert. apply list_insert_id.
  rewrite list_lookup_fmap, Hl. reflexivity.
Qed.

Lemma find_item_absent (it : string) (inv : Inventory) :
  find_item it inv = None → it ∉ (inv_item <$> inv).
Proof.
  unfold find_item. intros Hnone Hin.
  apply list_find_None in Hnone.
  apply list_elem_of_fmap in Hin as (row & -> & Hrow).
  rewrite Forall_forall in Hnone. exact (Hnone row Hrow eq_refl).
Qed.

(** The item column after one request: the column before, with the item of
    the request at its end when the request created a row. *)
Lemma step_items (st : State) (a : Action) :
  is_transaction a = true →
  inv_item <$> df_inventory (step st a) = inv_item <$> df_inventory st ∨
  ∃ it, (it ∉ inv_item <$> df_inventory st) ∧
        inv_item <$> df_inventory (step st a) = (inv_item <$> df_inventory st) ++ [it].
Proof.
  destruct a as [clk req|clk req| |]; try discriminate; intros _.
  - unfold step, exec, add_inbound, py_int; open_upload.
    destruct (quantity req) as [q|]; [|left; reflexivity].
    rewrite update_inventory_inbound, find_item_begin.
    destruct (find_item (item req) (df_inventory st)) as [[idx row]|] eqn:Hfind; cbn.
    + left. apply (items_write _ _ _ _ _ _ Hfind).
    + right. exists (item req). split; [apply find_item_absent, Hfind|].
      rewrite fmap_app. reflexivity.
  - unfold step, exec, add_outbound, py_int; open_upload.
    destruct (quantity req) as [q|]; [|left; reflexivity].
    rewrite update_inventory_outbound, find_item_begin.
    destruct (find_item (item req) (df_inventory st)) as [[idx row]|] eqn:Hfind;
      [destruct (inv_stock row - q <? 0)|]; cbn; left; try reflexivity.
    apply (items_write _ _ _ _ _ _ Hfind).
Qed.

Lemma step_unique_items (st : State) (a : Action) :
  is_transaction a = true →
  unique_items (df_inventory st) → unique_items (df_inventory (step st a)).
Proof.
  intros Ha Hu. unfold unique_items in *.
  destruct (step_items st a Ha) as [->|(it & Hnot & ->)]; [exact Hu|].
  apply NoDup_app. split; [exact Hu|]. split.
  - intros x Hx Hin. apply list_elem_of_singleton in Hin as ->. contradiction.
  - apply NoDup_singleton.
Qed.

Lemma step_history_all (P : Inventory → Prop) (st : State) (a : Action) :
  (is_transaction a = true → P (df_inventory st) → P (df_inventory (step st a))) →
  history_all P st → history_all P (step st a).
Proof.
  intros Hstep (Hinv & Hundo & Hredo).
  destruct (is_transaction a) eqn:Ha.
  - destruct (transaction_effect st a EmptyString Ha) as (_ & _ & Hu & Hr).
    split; [auto|]. rewrite Hu, Hr. split; [constructor; assumption | constructor].
  - destruct a; try discriminate.
    + pose proof (undo_memory st) as Hm.
      destruct (undo_stack st) as [|s rest] eqn:Hs;
        apply memory_eq in Hm as (Ht & Hu & Hr);
        apply (f_equal snd) in Ht; cbn in Ht;
        unfold history_all; rewrite Ht, Hu, Hr.
      * rewrite Hs. auto.
      * apply Forall_cons in Hundo as [Htop Hrest]. repeat split; auto.
    + pose proof (redo_memory st) as Hm.
      destruct (redo_stack st) as [|s rest] eqn:Hs;
        apply memory_eq in Hm as (Ht & Hu & Hr);
        apply (f_equal snd) in Ht; cbn in Ht;
        unfold history_all; rewrite Ht, Hu, Hr.
      * rewrite Hs. auto.
      * apply Forall_cons in Hredo as [Htop Hrest]. repeat split; auto.
Qed.

(** X10. No operation gives an item a second row: if the live inventory and
    every snapshot on the two stacks have at most one row for each item,
    this still holds after any sequence of inbound, outbound, undo and redo
    operations, whatever the quantities. *)
Theorem items_stay_unique (acts : list Action) (st : State) :
  history_all unique_items st → history_all unique_items (run st acts).
Proof.
  revert st. induction acts as [|a acts IH]; intros st Hok; [exact Hok|].
  rewrite run_cons. apply IH, step_history_all; [|exact Hok].
  apply step_unique_items.
Qed.

Lemma items_stay_unique_witness :
  history_all unique_items initial_state ∧
  unique_items
    (df_inventory
       (run initial_state
          [Inbound clock0 (widget (Some 10)); Inbound clock1 (widget (Some (-3)));
           Undo; Inbound clock2 (widget (Some 1)); Redo])).
Proof.
  assert (H : history_all unique_items initial_state).
  { split; [apply NoDup_nil_2 | split; constructor]. }
  split; [exact H|].
  exact (proj1 (items_stay_unique
                  [Inbound clock0 (widget (Some 10)); Inbound clock1 (widget (Some (-3)));
                   Undo; Inbound clock2 (widget (Some 1)); Redo] initial_state H)).
Defined.

(** X11. Requests never remove or reorder rows of the inventory: over any
    sequence of inbound and outbound requests the item column keeps the
    items it had, at their places, new items coming after them; a row whose
    quantity has come down to zero stays like any other. *)
Theorem inventory_rows_persist (acts : list Action) (st : State) :
  forallb is_transaction acts = true →
  (inv_item <$> df_inventory st) `prefix_of` (inv_item <$> df_inventory (run st acts)).
Proof.
  revert st. induction acts as [|a acts IH]; intros st Hall; [reflexivity|].
  cbn [forallb] in Hall. apply andb_prop in Hall as [Ha Hrest].
  rewrite run_cons. etransitivity; [|apply (IH _ Hrest)].
  destruct (step_items st a Ha) as [->|(it & _ & ->)];
    [reflexivity | apply prefix_app_r; reflexivity].
Qed.

Lemma inventory_rows_persist_witness :
  forallb is_transaction [Outbound clock1 (widget (Some 10))] = true ∧
  (inv_item <$> df_inventory stocked_state)
    `prefix_of` (inv_item <$> df_inventory (run stocked_state [Outbound clock1 (widget (Some 10))])).
Proof.
  split; [reflexivity|].
  exact (inventory_rows_persist [Outbound clock1 (widget (Some 10))] stocked_state eq_refl).
Defined.

(** ** One request and the rows it touches *)

Lemma find_item_write_same (it : string) (inv : Inventory) (idx : nat)
    (row : InventoryRow) (now : Time) (n : Z) :
  find_item it inv = Some (idx, row) →
  find_item it (<[idx := write_stock now n row]> inv)
    = Some (idx, write_stock now n row).
Proof.
  revert idx. induction inv as [|r inv IH]; intros idx Hfind; [discriminate|].
  rewrite find_item_cons in Hfind.
  destruct (decide (inv_item r = it)) as [Heq|Hne].
  - injection Hfind as <- <-. simpl. rewrite find_item_cons.
    rewrite decide_True by exact Heq. reflexivity.
  - destruct (find_item it inv) as [[i x]|] eqn:Hrest; [|discriminate].
    injection Hfind as <- <-. simpl. rewrite find_item_cons.
    rewrite decide_False by exact Hne. rewrite (IH i eq_refl). reflexivity.
Qed.

Lemma find_item_write_other (it it' : string) (inv : Inventory) (idx : nat)
    (row : InventoryRow) (now : Time) (n : Z) :
  find_item it inv = Some (idx, row) → it' ≠ it →
  find_item it' (<[idx := write_stock now n row]> inv) = find_item it' inv.
Proof.
  revert idx. induction inv as [|r inv IH]; intros idx Hfind Hdiff; [discriminate|].
  rewrite find_item_cons in Hfind.
  destruct (decide (inv_item r = it)) as [Heq|Hne].
  - injection Hfind as <- <-. simpl. rewrite !find_item_cons.
    cbn [write_stock inv_item].
    rewrite !decide_False by congruence. reflexivity.
  - destruct (find_item it inv) as [[i x]|] eqn:Hrest; [|discriminate].
    injection Hfind as <- <-. simpl. rewrite !find_item_cons.
    rewrite (IH i eq_refl Hdiff). reflexivity.
Qed.

Lemma find_item_new_row (it it' : string) (inv : Inventory) (r : InventoryRow) :
  find_item it inv = None → inv_item r = it →
  find_item it' (inv ++ [r]) =
  if decide (it' = it) then Some (length inv, r) else find_item it' inv.
Proof.
  intros Hnone Hr. induction inv as [|x inv IH].
  - cbn [app length]. rewrite find_item_cons.
    destruct (decide (it' = it)) as [->|Hd].
    + rewrite decide_True by exact Hr. reflexivity.
    + rewrite decide_False by congruence. reflexivity.
  - rewrite find_item_cons in Hnone.
    destruct (decide (inv_item x = it)) as [|Hx]; [discriminate|].
    destruct (find_item it inv) as [[i y]|] eqn:Hrest; [discriminate|].
    cbn [app length]. rewrite !find_item_cons, (IH eq_refl).
    destruct (decide (it' = it)) as [->|Hd].
    + rewrite decide_False by exact Hx. reflexivity.
    + reflexivity.
Qed.

(** X12. A request touches the first row of its own item and nothing else
    in the inventory: for every other item the first row is found at the
    same index with the same quantity and the same last-change time; and
    when the request is committed, the row of its item carries the clock
    reading of the inventory update. *)
Theorem request_touches_only_its_item
    (st : State) (a : Action) (clk : Clock) (req : Request) :
  a = Inbound clk req ∨ a = Outbound clk req →
  (∀ it', it' ≠ item req →
     find_item it' (df_inventory (step st a)) = find_item it' (df_inventory st)) ∧
  (committed st a = true →
     ∃ idx row, find_item (item req) (df_inventory (step st a)) = Some (idx, row) ∧
                inv_last_changed row = t_stock clk).
Proof.
  intros [-> | ->].
  - unfold step, exec, committed, add_inbound, py_int; open_upload.
    destruct (quantity req) as [q|]; [|split; [reflexivity | discriminate]].
    rewrite update_inventory_inbound, find_item_begin.
    destruct (find_item (item req) (df_inventory st)) as [[idx row]|] eqn:Hfind;
      cbn.
    + split.
      * intros it' Hd. apply (find_item_write_other _ _ _ _ _ _ _ Hfind Hd).
      * intros _. eexists _, _. split; [apply (find_item_write_same _ _ _ _ _ _ Hfind)|].
        reflexivity.
    + split.
      * intros it' Hd. rewrite (find_item_new_row (item req) it' _
                   {| inv_last_changed := t_stock clk; inv_item := item req; inv_stock := q |} Hfind eq_refl).
        rewrite decide_False by exact Hd. reflexivity.
      * intros _. eexists _, _.
        rewrite (find_item_new_row (item req) (item req) _
                   {| inv_last_changed := t_stock clk; inv_item := item req; inv_stock := q |} Hfind eq_refl).
        rewrite decide_True by reflexivity. split; reflexivity.
  - unfold step, exec, committed, add_outbound, py_int; open_upload.
    destruct (quantity req) as [q|]; [|split; [reflexivity | discriminate]].
    rewrite update_inventory_outbound, find_item_begin.
    destruct (find_item (item req) (df_inventory st)) as [[idx row]|] eqn:Hfind;
      [destruct (inv_stock row - q <? 0)|];
      cbn.
    + split; [reflexivity | discriminate].
    + split.
      * intros it' Hd. apply (find_item_write_other _ _ _ _ _ _ _ Hfind Hd).
      * intros _. eexists _, _. split; [apply (find_item_write_same _ _ _ _ _ _ Hfind)|].
        reflexivity.
    + split; [reflexivity | discriminate].
Qed.

Lemma request_touches_only_its_item_witness :
  (Outbound clock1 (widget (Some 4)) = Inbound clock1 (widget (Some 4)) ∨
   Outbound clock1 (widget (Some 4)) = Outbound clock1 (widget (Some 4))) ∧
  committed stocked_state (Outbound clock1 (widget (Some 4))) = true ∧
  ∃ idx row,
    find_item "widget" (df_inventory (step stocked_state (Outbound clock1 (widget (Some 4)))))
      = Some (idx, row) ∧
    inv_last_changed row = 4.
Proof.
  split; [right; reflexivity|]. split; [reflexivity|].
  exact (proj2 (request_touches_only_its_item stocked_state
                  (Outbound clock1 (widget (Some 4))) clock1 (widget (Some 4))
                  (or_intror eq_refl)) eq_refl).
Defined.

(** X13. An outbound request is committed exactly when its quantity is an
    integer, its item has a row, and the quantity does not exceed the stock
    of the first row of the item. *)
Theorem outbound_committed_iff (st : State) (clk : Clock) (req : Request) :
  committed st (Outbound clk req) = true ↔
  ∃ q idx row, quantity req = Some q ∧
               find_item (item req) (df_inventory st) = Some (idx, row) ∧
               q ≤ inv_stock row.
Proof.
  unfold committed, add_outbound, py_int; open_upload.
  destruct (quantity req) as [q|]; cbn [snd].
  - rewrite update_inventory_outbound, find_item_begin.
    destruct (find_item (item req) (df_inventory st)) as [[idx row]|] eqn:Hfind;
      [destruct (inv_stock row - q <? 0) eqn:Hneg|]; cbn [fst snd negb].
    + rewrite negative_stock_is_no_success. apply Z.ltb_lt in Hneg. split; [discriminate|].
      intros (q' & idx' & row' & [= <-] & [= <- <-] & Hle). lia.
    + rewrite String.eqb_refl. apply Z.ltb_ge in Hneg. split; [|reflexivity].
      intros _. exists q, idx, row. repeat split. lia.
    + rewrite unknown_item_is_no_success. split; [discriminate|].
      intros (q' & idx' & row' & _ & Hf & _). discriminate.
  - split; [discriminate|]. intros (q' & idx' & row' & Hq & _). discriminate.
Qed.

Lemma outbound_committed_iff_witness :
  (∃ q idx row, quantity (widget (Some 10)) = Some q ∧
                find_item (item (widget (Some 10))) (df_inventory stocked_state)
                  = Some (idx, row) ∧
                q ≤ inv_stock row) ∧
  committed stocked_state (Outbound clock1 (widget (Some 10))) = true.
Proof.
  assert (H : ∃ q idx row, quantity (widget (Some 10)) = Some q ∧
                find_item (item (widget (Some 10))) (df_inventory stocked_state)
                  = Some (idx, row) ∧
                q ≤ inv_stock row).
  { exists 10, 0%nat,
      {| inv_last_changed := 2; inv_item := "widget"; inv_stock := 10 |}.
    split; [reflexivity|]. split; [reflexivity|]. cbn. lia. }
  split; [exact H|].
  exact (proj2 (outbound_committed_iff stocked_state clock1 (widget (Some 10))) H).
Defined.

(** X14. Taking out the whole stock of an item is committed and leaves its
    row in place with quantity zero: the row is not removed, the inventory
    keeps its length, and a later outbound request of the item for any
    positive quantity is refused for lack of stock, not as an unknown
    item. *)
Theorem outbound_of_whole_stock (st : State) (clk clk' : Clock) (req req' : Request)
    (q q' : Z) (idx : nat) (row : InventoryRow) :
  quantity req = Some q →
  find_item (item req) (df_inventory st) = Some (idx, row) →
  inv_stock row = q →
  item req' = item req → quantity req' = Some q' → 0 < q' →
  snd (add_outbound clk req st) = Return msg_outbound_ok ∧
  find_item (item req) (df_inventory (fst (add_outbound clk req st)))
    = Some (idx, {| inv_last_changed := t_stock clk; inv_item := inv_item row;
                    inv_stock := 0 |}) ∧
  length (df_inventory (fst (add_outbound clk req st))) = length (df_inventory st) ∧
  snd (add_outbound clk' req' (fst (add_outbound clk req st)))
    = Return (msg_negative_stock (item req)).
Proof.
  intros Hq Hfind Hall Hit Hq' Hpos.
  assert (Hafter : fst (add_outbound clk req st)
                   = save_transactions
                       (set_transactions
                          (df_transactions st ++
                             [make_record (t_record clk) OUTBOUND req
                                (with_image (remarks req) (image_path_of (image req)))])
                          (save_inventory
                             (set_inventory
                                (<[idx := write_stock (t_stock clk) 0 row]> (df_inventory st))
                                (save_upload (image req) (begin_transaction clk st))))) ∧
                   snd (add_outbound clk req st) = Return msg_outbound_ok).
  { unfold add_outbound, py_int; open_upload. rewrite Hq.
    rewrite update_inventory_outbound, find_item_begin, Hfind.
    replace (inv_stock row - q) with 0 by lia. split; reflexivity. }
  destruct Hafter as [Hst Hout].
  pose proof (find_item_write_same _ _ _ _ (t_stock clk) 0 Hfind) as Hrow.
  split; [exact Hout|]. rewrite Hst.
  cbn [df_inventory save_transactions set_transactions save_inventory set_inventory].
  split; [exact Hrow|]. split; [apply length_insert|].
  unfold add_outbound, py_int; open_upload. rewrite Hq'.
  rewrite update_inventory_outbound, find_item_begin, Hit.
  cbn [df_inventory save_transactions set_transactions save_inventory set_inventory].
  rewrite Hrow. cbn [write_stock inv_stock].
  replace (0 - q' <? 0) with true by (symmetry; apply Z.ltb_lt; lia).
  reflexivity.
Qed.

Lemma outbound_of_whole_stock_witness :
  quantity (widget (Some 10)) = Some 10 ∧
  0 < 3 ∧
  snd (add_outbound clock1 (widget (Some 10)) stocked_state) = Return msg_outbound_ok ∧
  snd (add_outbound clock2 (widget (Some 3))
         (fst (add_outbound clock1 (widget (Some 10)) stocked_state)))
    = Return (msg_negative_stock "widget").
Proof.
  split; [reflexivity|]. split; [lia|].
  destruct (outbound_of_whole_stock stocked_state clock1 clock2
              (widget (Some 10)) (widget (Some 3)) 10 3 0
              {| inv_last_changed := 2; inv_item := "widget"; inv_stock := 10 |}
              eq_refl eq_refl eq_refl eq_refl eq_refl ltac:(lia))
    as (Hout & _ & _ & Hnext).
  exact (conj Hout Hnext).
Defined.

(** ** The journal row and the upload *)

(** X16. The journal row of a committed request: the request adds one row at
    the end of the journal, with the clock reading of the request, its
    direction, item, counterparty and operator; the remark is recorded as
    entered when there is no upload, and followed by the mark [|| image:]
    and the path of the saved upload when there is one.  The quantity is in
    no column. *)
Theorem committed_request_row (st : State) (a : Action) (clk : Clock) (req : Request) :
  a = Inbound clk req ∨ a = Outbound clk req →
  committed st a = true →
  df_transactions (step st a) = df_transactions st ++ [{|
    rec_date := t_record clk;
    rec_type := match a with Inbound _ _ => INBOUND | _ => OUTBOUND end;
    rec_item := item req;
    rec_sender_receiver := sender_receiver req;
    rec_operator := operator req;
    rec_remarks := match image req with
                   | None => remarks req
                   | Some f =>
                       remarks req +:+ " || image:" +:+ "./data/"
                         +:+ basename (file_name f)
                   end
  |}].
Proof.
  intros Ha Hc.
  assert (Ht : is_transaction a = true) by (destruct Ha as [-> | ->]; reflexivity).
  destruct (transaction_effect st a EmptyString Ht) as (Hj & _).
  rewrite Hj, Hc. f_equal.
  destruct Ha as [-> | ->]; cbn [record_of];
    unfold make_record; destruct (image req) as [f|]; reflexivity.
Qed.

Lemma committed_request_row_witness :
  (Inbound clock0 (widget (Some 10)) = Inbound clock0 (widget (Some 10)) ∨
   Inbound clock0 (widget (Some 10)) = Outbound clock0 (widget (Some 10))) ∧
  committed initial_state (Inbound clock0 (widget (Some 10))) = true ∧
  df_transactions (step initial_state (Inbound clock0 (widget (Some 10)))) =
  [{| rec_date := 1; rec_type := INBOUND; rec_item := "widget";
      rec_sender_receiver := "acme"; rec_operator := "li"; rec_remarks := "none" |}].
Proof.
  split; [left; reflexivity|]. split; [reflexivity|].
  exact (committed_request_row initial_state (Inbound clock0 (widget (Some 10)))
           clock0 (widget (Some 10)) (or_introl eq_refl) eq_refl).
Defined.

(** ** Stock from any starting state *)

(** X17. From any starting tables, also ones that were not built by this
    program, a sequence of inbound and outbound requests moves the stock of
    each item, read off its first row and counted zero without a row, by
    the quantities of the committed inbound requests of the item minus
    those of its committed outbound requests; refused and raising requests
    move nothing. *)
Theorem stock_moves_by_committed_requests (acts : list Action) (st : State) (it : string) :
  forallb is_transaction acts = true →
  default 0 (stock_of it (df_inventory (run st acts)))
    = default 0 (stock_of it (df_inventory st)) + net_quantity it (committed_of st acts).
Proof. intros Hall. exact (proj2 (run_transactions acts st it Hall)). Qed.

Lemma stock_moves_by_committed_requests_witness :
  forallb is_transaction
    [Outbound clock1 (widget (Some 4)); Outbound clock2 (widget (Some 90))] = true ∧
  default 0 (stock_of "widget" (df_inventory busy_state)) = 10 + (-4).
Proof.
  split; [reflexivity|].
  exact (stock_moves_by_committed_requests
           [Outbound clock1 (widget (Some 4)); Outbound clock2 (widget (Some 90))]
           stocked_state "widget" eq_refl).
Defined.

Lemma request_keeps_nonneg (st : State) (a : Action) :
  nonneg_inbound a → is_transaction a = true →
  nonneg_inventory (df_inventory st) → nonneg_inventory (df_inventory (step st a)).
Proof.
  destruct a as [clk req|clk req| |]; try discriminate; intros Hq _ Hinv.
  - unfold step, exec, add_inbound, py_int; open_upload. cbn [nonneg_inbound] in Hq.
    destruct (quantity req) as [q|]; [|exact Hinv].
    rewrite update_inventory_inbound, find_item_begin.
    destruct (find_item (item req) (df_inventory st)) as [[idx row]|] eqn:Hfind; cbn.
    + apply nonneg_write; [assumption|].
      pose proof (nonneg_row _ _ _ _ Hinv Hfind). lia.
    + apply Forall_app. split; [assumption|]. apply Forall_singleton. exact Hq.
  - unfold step, exec, add_outbound, py_int; open_upload.
    destruct (quantity req) as [q|]; [|exact Hinv].
    rewrite update_inventory_outbound, find_item_begin.
    destruct (find_item (item req) (df_inventory st)) as [[idx row]|] eqn:Hfind;
      [|exact Hinv].
    destruct (inv_stock row - q <? 0) eqn:Hneg; [exact Hinv|].
    cbn. apply nonneg_write; [assumption|]. apply Z.ltb_ge in Hneg. exact Hneg.
Qed.

(** X18. Outbound requests cannot make a quantity negative, whatever their
    quantity, and inbound requests cannot either unless their own quantity
    is negative: if the live inventory and every snapshot on the stacks have
    no negative quantity, this still holds after any sequence of operations
    in which no inbound request has a negative quantity; zero quantities,
    requests without a quantity, negative outbound quantities, undo and redo
    are all allowed. *)
Theorem only_negative_inbound_breaks_stock (acts : list Action) (st : State) :
  Forall nonneg_inbound acts →
  history_all nonneg_inventory st → history_all nonneg_inventory (run st acts).
Proof.
  revert st. induction acts as [|a acts IH]; intros st Hall Hok; [exact Hok|].
  apply Forall_cons in Hall as [Ha Hrest].
  rewrite run_cons. apply IH; [exact Hrest|].
  apply step_history_all; [|exact Hok]. apply request_keeps_nonneg, Ha.
Qed.

Lemma only_negative_inbound_breaks_stock_witness :
  Forall nonneg_inbound
    [Inbound clock0 (widget (Some 0)); Outbound clock1 (widget (Some (-7)));
     Outbound clock2 (widget (Some 9)); Undo; Inbound clock2 (widget None)] ∧
  nonneg_inventory
    (df_inventory
       (run initial_state
          [Inbound clock0 (widget (Some 0)); Outbound clock1 (widget (Some (-7)));
           Outbound clock2 (widget (Some 9)); Undo; Inbound clock2 (widget None)])).
Proof.
  assert (H : Forall nonneg_inbound
    [Inbound clock0 (widget (Some 0)); Outbound clock1 (widget (Some (-7)));
     Outbound clock2 (widget (Some 9)); Undo; Inbound clock2 (widget None)]).
  { repeat constructor. cbn. lia. }
  split; [exact H|].
  exact (proj1 (only_negative_inbound_breaks_stock _ initial_state H
                  (conj (Forall_nil_2 _) (conj (Forall_nil_2 _) (Forall_nil_2 _))))).
Defined.


